(** * ExpenseCard: a shallow embedding of the expense-tracker card component

    The repository holds one React function component, [ExpenseCard], in two
    variants:
      - src/components/ExpenseCard/ExpenseCard.tsx (plain CSS classes), and
      - a Tailwind variant of the same component.

    The component formats an amount through [Intl.NumberFormat], a date
    through [Date.prototype.toLocaleDateString], and returns a JSX tree with
    an optional category badge and an optional delete button.

    The file is organised as follows:
      - [JS]       : the values and the platform calls the component uses;
      - [React]    : element trees, click dispatch and queries on trees;
      - [Css], [Tailwind] : the two variants of the component;
      - the properties of the component.

    [Intl.NumberFormat], [Date] and the event system are not code of the
    repository.  They are modelled after the language standards (ECMA-262
    for [Date], ECMA-402 for the en-US formatters) as far as the two calls
    of the component reach, and what the standards leave to the host (the
    time zone, the parsing of strings outside the date-only forms) is a
    parameter, [JS.Date.Environment].  The number formatter starts, as the
    engines do, from the shortest decimal that reads back as the double,
    not from the exact binary value. *)

From Stdlib Require Import ZArith List String Ascii Bool Lia.
From Stdlib Require Import Floats.SpecFloat.
From Stdlib Require Import QArith Qround Qpower Qabs Lqa.
Import ListNotations.

Open Scope string_scope.
Open Scope Z_scope.

(* ================================================================== *)
(** * The JavaScript platform *)
(* ================================================================== *)

Module JS.

(** A JavaScript [number] is an IEEE 754 binary64 value: NaN, a signed
    infinity, a signed zero, or [(-1)^s * m * 2^e]. *)
Definition number : Type := spec_float.

Definition prec : Z := 53.
Definition emax : Z := 1024.

(** [is_double x] holds when [x] is in the canonical binary64 form. *)
Definition is_double (x : number) : bool := valid_binary prec emax x.

Definition is_finite (x : number) : bool :=
  match x with
  | S754_zero _ | S754_finite _ _ _ => true
  | S754_infinity _ | S754_nan => false
  end.

(** Strings are kept as byte strings; a character outside ASCII is held as
    its UTF-8 bytes. *)
Definition utf8_2 (b1 b2 : nat) : string :=
  String (ascii_of_nat b1) (String (ascii_of_nat b2) "").
Definition utf8_3 (b1 b2 b3 : nat) : string :=
  String (ascii_of_nat b1) (utf8_2 b2 b3).

(** U+00D7 MULTIPLICATION SIGN and U+221E INFINITY. *)
Definition times_sign : string := utf8_2 195 151.
Definition infinity_sign : string := utf8_3 226 136 158.

(** ** Completions: a call returns normally or throws *)

Inductive error : Type :=
| RangeError (msg : string)
| TypeError (msg : string).

Inductive completion (A : Type) : Type :=
| Normal (a : A)
| Throw (e : error).
Arguments Normal {A} a.
Arguments Throw {A} e.

(** ** Decimal digits *)

Definition digit (d : Z) : ascii := ascii_of_nat (48 + Z.to_nat d).

Definition is_digit (c : ascii) : bool :=
  let n := nat_of_ascii c in (48 <=? n)%nat && (n <=? 57)%nat.

Definition digit_value (c : ascii) : option Z :=
  if is_digit c then Some (Z.of_nat (nat_of_ascii c) - 48) else None.

(** [fixed k n]: the [k] low decimal digits of [n], zero padded. *)
Fixpoint fixed (k : nat) (n : Z) : string :=
  match k with
  | O => ""
  | S k' => fixed k' (n / 10) ++ String (digit (n mod 10)) ""
  end.

Fixpoint decimal_fuel (fuel : nat) (n : Z) : string :=
  match fuel with
  | O => ""
  | S f =>
      (if n <? 10 then "" else decimal_fuel f (n / 10))
        ++ String (digit (n mod 10)) ""
  end.

(** [decimal n]: the decimal numeral of [n >= 0] without leading zeros. *)
Definition decimal (n : Z) : string :=
  decimal_fuel (S (Z.to_nat (Z.log2 n))) n.

(** ** Intl.NumberFormat('en-US', {style: 'currency', currency: 'USD'}) *)

Module NumberFormat.

(** The integer digits in groups of three, separated by commas. *)
Fixpoint grouped_fuel (fuel : nat) (n : Z) : string :=
  match fuel with
  | O => ""
  | S f =>
      if n <? 1000 then decimal n
      else grouped_fuel f (n / 1000) ++ "," ++ fixed 3 (n mod 1000)
  end.

Definition grouped (n : Z) : string :=
  grouped_fuel (S (Z.to_nat (Z.log2 n))) n.

(** The value [m * 2^e] of a finite double, sign apart. *)
Definition binary_value (m : positive) (e : Z) : Q :=
  (inject_Z (Zpos m) * 2 ^ e)%Q.

Definition pow10 (k : Z) : Q := (10 ^ k)%Q.

(** The doubles next to [m * 2^e] are one unit in the last place away,
    but for the one below a power of two, which is half as far. *)
Definition lower_is_closer (m : positive) (e : Z) : bool :=
  (Zpos m =? 2 ^ (prec - 1)) && (3 - emax - prec <? e).

Definition lower_bound (m : positive) (e : Z) : Q :=
  if lower_is_closer m e
  then (inject_Z (4 * Zpos m - 1) * 2 ^ (e - 2))%Q
  else (inject_Z (2 * Zpos m - 1) * 2 ^ (e - 1))%Q.

Definition upper_bound (m : positive) (e : Z) : Q :=
  (inject_Z (2 * Zpos m + 1) * 2 ^ (e - 1))%Q.

Definition Qlt_bool (x y : Q) : bool := negb (Qle_bool y x).

(** [rounds_to m e q]: reading the number [q] gives the double [m * 2^e];
    a number half way between two doubles goes to the even one. *)
Definition rounds_to (m : positive) (e : Z) (q : Q) : bool :=
  if Z.even (Zpos m)
  then Qle_bool (lower_bound m e) q && Qle_bool q (upper_bound m e)
  else Qlt_bool (lower_bound m e) q && Qlt_bool q (upper_bound m e).

(** The multiple of [10^k] that rounds to the double and is nearest to
    it, if there is one. *)
Definition at_level (m : positive) (e k : Z) : option Z :=
  let v := binary_value m e in
  let s1 := Qfloor (v / pow10 k) in
  let s2 := s1 + 1 in
  let d1 := (inject_Z s1 * pow10 k)%Q in
  let d2 := (inject_Z s2 * pow10 k)%Q in
  match rounds_to m e d1, rounds_to m e d2 with
  | true, true =>
      if Qlt_bool (v - d1) (d2 - v) then Some s1
      else if Qlt_bool (d2 - v) (v - d1) then Some s2
      else if Z.even s1 then Some s1 else Some s2
  | true, false => Some s1
  | false, true => Some s2
  | false, false => None
  end.

(** The double itself as a decimal: [m * 2^e = s * 10^k]. *)
Definition exact_decimal (m : positive) (e : Z) : Z * Z :=
  if 0 <=? e then (Zpos m * 2 ^ e, 0) else (Zpos m * 5 ^ (- e), e).

Fixpoint shortest_from (fuel : nat) (m : positive) (e k : Z) : Z * Z :=
  match at_level m e k with
  | Some s => (s, k)
  | None =>
      match fuel with
      | O => exact_decimal m e
      | S f => shortest_from f m e (k - 1)
      end
  end.

(** No power of ten above [top_level] is as small as the double:
    [2^(3 * k) <= 10^k]. *)
Definition top_level (m : positive) (e : Z) : Z :=
  Z.max 0 ((Z.log2 (Zpos m) + e + 2) / 3 + 1).

(** The shortest decimal [s * 10^k] that rounds to the double. *)
Definition shortest (m : positive) (e : Z) : Z * Z :=
  shortest_from (Z.to_nat (top_level m e - Z.min e 0)) m e (top_level m e).

(** [cents m e]: the shortest decimal of [m * 2^e] in hundredths, rounded
    to the nearest integer with ties away from zero (rounding mode
    halfExpand, two fraction digits, as USD has). *)
Definition cents (m : positive) (e : Z) : Z :=
  let (s, k) := shortest m e in
  Qfloor (inject_Z s * pow10 (k + 2) + (1 # 2))%Q.

(** The decimal [n / 10^j], and its hundredths rounded to the nearest
    integer with ties away from zero (for [n >= 0]). *)
Definition decimal_value (n j : Z) : Q := (inject_Z n * pow10 (- j))%Q.

Definition half_up_cents (n j : Z) : Z :=
  (200 * n + 10 ^ j) / (2 * 10 ^ j).

(** [rounds_to] as an interval. *)
Definition in_interval (m : positive) (e : Z) (q : Q) : Prop :=
  if Z.even (Zpos m)
  then (lower_bound m e <= q <= upper_bound m e)%Q
  else (lower_bound m e < q < upper_bound m e)%Q.


Definition magnitude (c : Z) : string :=
  grouped (c / 100) ++ "." ++ fixed 2 (c mod 100).

Definition sign_prefix (s : bool) : string := if s then "-" else "".

(** [new Intl.NumberFormat('en-US', {style: 'currency', currency:
    'USD'}).format(x)]: the sign (negative zero included), the currency
    symbol, then the grouped integer digits and two fraction digits of the
    shortest decimal of [x], rounded; NaN and the infinities have no
    digits. *)
Definition format (x : number) : string :=
  match x with
  | S754_nan => "$NaN"
  | S754_infinity s => sign_prefix s ++ "$" ++ infinity_sign
  | S754_zero s => sign_prefix s ++ "$" ++ magnitude 0
  | S754_finite s m e => sign_prefix s ++ "$" ++ magnitude (cents m e)
  end.

(** The shape of a formatted amount, read from the left: an optional
    minus, the dollar sign, one to three digits with no leading zero
    (a lone "0" apart), groups of a comma and three digits, a point and
    two digits. *)

Fixpoint usd_tail (s : string) : bool :=
  match s with
  | String p (String a (String b rest)) =>
      if Ascii.eqb p "." then is_digit a && is_digit b && String.eqb rest ""
      else if Ascii.eqb p "," then
        match rest with
        | String c rest' =>
            is_digit a && is_digit b && is_digit c && usd_tail rest'
        | EmptyString => false
        end
      else false
  | _ => false
  end.

Definition usd_magnitude (s : string) : bool :=
  match s with
  | String a r =>
      is_digit a &&
      (if Ascii.eqb a "0" then usd_tail r && String.prefix "." r
       else
         usd_tail r ||
         match r with
         | String b r2 =>
             is_digit b &&
             (usd_tail r2 ||
              match r2 with
              | String c r3 => is_digit c && usd_tail r3
              | EmptyString => false
              end)
         | EmptyString => false
         end)
  | EmptyString => false
  end.

Definition is_usd (s : string) : bool :=
  match s with
  | String c r =>
      if Ascii.eqb c "$" then usd_magnitude r
      else if Ascii.eqb c "-" then
        match r with
        | String d r' => Ascii.eqb d "$" && usd_magnitude r'
        | EmptyString => false
        end
      else false
  | EmptyString => false
  end.

End NumberFormat.

(** ** Date *)

Module Date.

(** The part of the host environment the component's date formatting
    depends on: the offset of local time from UTC (milliseconds, at a UTC
    instant), and the host's own parser for the strings that are outside
    the date-only forms below (ECMAScript leaves their parsing to the
    implementation). *)
Record Environment : Type := {
  LocalTZA : Z -> Z;
  parseFallback : string -> option Z
}.

(** A time value: milliseconds since the epoch, or [None] for NaN. *)
Definition time_value : Type := option Z.

Definition msPerDay : Z := 86400000.

Definition Day (t : Z) : Z := t / msPerDay.

Definition DaysInYear (y : Z) : Z :=
  if negb (y mod 4 =? 0) then 365
  else if negb (y mod 100 =? 0) then 366
  else if negb (y mod 400 =? 0) then 365
  else 366.

Definition DayFromYear (y : Z) : Z :=
  365 * (y - 1970) + (y - 1969) / 4 - (y - 1901) / 100 + (y - 1601) / 400.

(** The year of a day number: the largest [y] with [DayFromYear y <= d],
    found from an estimate that is off by at most one. *)
Definition YearFromDay (d : Z) : Z :=
  let y := 1970 + (400 * d) / 146097 in
  if d <? DayFromYear y then y - 1
  else if DayFromYear (y + 1) <=? d then y + 1
  else y.

Definition YearFromTime (t : Z) : Z := YearFromDay (Day t).

Definition InLeapYear (t : Z) : Z :=
  if DaysInYear (YearFromTime t) =? 366 then 1 else 0.

Definition DayWithinYear (t : Z) : Z := Day t - DayFromYear (YearFromTime t).

(** The number of days of the year before month [m] (0 = January). *)
Definition DaysBeforeMonth (m leap : Z) : Z :=
  match m with
  | 0 => 0
  | 1 => 31
  | 2 => 59 + leap
  | 3 => 90 + leap
  | 4 => 120 + leap
  | 5 => 151 + leap
  | 6 => 181 + leap
  | 7 => 212 + leap
  | 8 => 243 + leap
  | 9 => 273 + leap
  | 10 => 304 + leap
  | _ => 334 + leap
  end.

Definition MonthFromDayWithinYear (d leap : Z) : Z :=
  if d <? 31 then 0
  else if d <? 59 + leap then 1
  else if d <? 90 + leap then 2
  else if d <? 120 + leap then 3
  else if d <? 151 + leap then 4
  else if d <? 181 + leap then 5
  else if d <? 212 + leap then 6
  else if d <? 243 + leap then 7
  else if d <? 273 + leap then 8
  else if d <? 304 + leap then 9
  else if d <? 334 + leap then 10
  else 11.

Definition MonthFromTime (t : Z) : Z :=
  MonthFromDayWithinYear (DayWithinYear t) (InLeapYear t).

Definition DateFromTime (t : Z) : Z :=
  DayWithinYear t - DaysBeforeMonth (MonthFromTime t) (InLeapYear t) + 1.

Definition DaysInMonth (y m : Z) : Z :=
  match m with
  | 1 => if DaysInYear y =? 366 then 29 else 28
  | 3 | 5 | 8 | 10 => 30
  | _ => 31
  end.

(** [MakeDay year month date], for a month in 0..11. *)
Definition MakeDay (year month date : Z) : Z :=
  let leap := if DaysInYear year =? 366 then 1 else 0 in
  DayFromYear year + DaysBeforeMonth month leap + date - 1.

Definition TimeClip (t : Z) : time_value :=
  if Z.abs t <=? 8640000000000000 then Some t else None.

(** *** Parsing the date-only forms YYYY, YYYY-MM and YYYY-MM-DD *)

Definition two_digits (a b : ascii) : option Z :=
  match digit_value a, digit_value b with
  | Some x, Some y => Some (10 * x + y)
  | _, _ => None
  end.

Definition four_digits (a b c d : ascii) : option Z :=
  match two_digits a b, two_digits c d with
  | Some x, Some y => Some (100 * x + y)
  | _, _ => None
  end.

Definition dash (c : ascii) : bool := Ascii.eqb c "-".

(** The fields (year, month 1..12, day) a date-only string spells. *)
Definition date_only_fields (s : string) : option (Z * Z * Z) :=
  match s with
  | String y1 (String y2 (String y3 (String y4 rest))) =>
      match four_digits y1 y2 y3 y4, rest with
      | Some y, EmptyString => Some (y, 1, 1)
      | Some y, String s1 (String m1 (String m2 rest')) =>
          match dash s1, two_digits m1 m2, rest' with
          | true, Some m, EmptyString => Some (y, m, 1)
          | true, Some m, String s2 (String d1 (String d2 EmptyString)) =>
              match dash s2, two_digits d1 d2 with
              | true, Some d => Some (y, m, d)
              | _, _ => None
              end
          | _, _, _ => None
          end
      | _, _ => None
      end
  | _ => None
  end.

(** A date-only string with legal field values denotes midnight UTC of
    that day. *)
Definition parseDateOnly (s : string) : option Z :=
  match date_only_fields s with
  | Some (y, m, d) =>
      if (1 <=? m) && (m <=? 12) && (1 <=? d) && (d <=? DaysInMonth y (m - 1))
      then Some (MakeDay y (m - 1) d * msPerDay)
      else None
  | None => None
  end.

(** [Date.parse]: the date-only forms are fixed by the language; every
    other string is left to the host. *)
Definition parse (env : Environment) (s : string) : time_value :=
  match parseDateOnly s with
  | Some t => TimeClip t
  | None =>
      match parseFallback env s with
      | Some t => TimeClip t
      | None => None
      end
  end.

(** A Date object holds a time value. *)
Record DateObject : Type := { DateValue : time_value }.

(** [new Date(s)] for a string argument. *)
Definition construct (env : Environment) (s : string) : DateObject :=
  {| DateValue := parse env s |}.

Definition LocalTime (env : Environment) (t : Z) : Z := t + LocalTZA env t.

Definition month_short (m : Z) : string :=
  match m with
  | 0 => "Jan" | 1 => "Feb" | 2 => "Mar" | 3 => "Apr"
  | 4 => "May" | 5 => "Jun" | 6 => "Jul" | 7 => "Aug"
  | 8 => "Sep" | 9 => "Oct" | 10 => "Nov" | _ => "Dec"
  end.

(** The year field of the Gregorian calendar is the year of the era. *)
Definition year_of_era (y : Z) : Z := if 1 <=? y then y else 1 - y.

(** Formatting a time value with the en-US formatter for
    [{month: 'short', day: 'numeric', year: 'numeric'}] in the local time
    zone; formatting NaN throws a RangeError. *)
Definition FormatDateTime (env : Environment) (x : time_value)
  : completion string :=
  match x with
  | None => Throw (RangeError "Invalid time value")
  | Some t =>
      let tl := LocalTime env t in
      Normal (month_short (MonthFromTime tl) ++ " "
              ++ decimal (DateFromTime tl) ++ ", "
              ++ decimal (year_of_era (YearFromTime tl)))
  end.

(** [d.toLocaleDateString('en-US', {month: 'short', day: 'numeric',
    year: 'numeric'})]: an invalid date is answered before the formatter
    is reached. *)
Definition toLocaleDateString (env : Environment) (d : DateObject)
  : completion string :=
  match DateValue d with
  | None => Normal "Invalid Date"
  | Some t => FormatDateTime env (Some t)
  end.

(** The shape "Mon D, YYYY": a short month name, a space, a day of one or
    two digits without a leading zero, a comma and a space, four digits. *)
Definition is_month_short (s : string) : bool :=
  existsb (String.eqb s)
    ["Jan"; "Feb"; "Mar"; "Apr"; "May"; "Jun";
     "Jul"; "Aug"; "Sep"; "Oct"; "Nov"; "Dec"].

Definition is_year4 (s : string) : bool :=
  match s with
  | String a (String b (String c (String d EmptyString))) =>
      is_digit a && is_digit b && is_digit c && is_digit d
  | _ => false
  end.

Definition is_day_year (s : string) : bool :=
  match s with
  | String d1 (String c1 (String c2 r)) =>
      is_digit d1 && negb (Ascii.eqb d1 "0") &&
      (if Ascii.eqb c1 "," then Ascii.eqb c2 " " && is_year4 r
       else
         is_digit c1 && Ascii.eqb c2 "," &&
         match r with
         | String sp y => Ascii.eqb sp " " && is_year4 y
         | EmptyString => false
         end)
  | _ => false
  end.

Definition is_short_date (s : string) : bool :=
  match s with
  | String a (String b (String c (String sp r))) =>
      is_month_short (String a (String b (String c "")))
      && Ascii.eqb sp " "
      && is_day_year r
  | _ => false
  end.

End Date.

End JS.

(* ================================================================== *)
(** * React: element trees and click events *)
(* ================================================================== *)

Module React.

Section Elements.

(** [World] is everything outside the component that a callback or a
    render could read or change: the caller's state. *)
Context {World : Type}.

(** What a click leaves behind, in order. *)
Inductive Action : Type :=
| PropagationStopped
| CallbackInvoked (arg : JS.number).

(** The state a click handler runs in: the flag of the event being
    dispatched, the caller's world, and the journal of what happened. *)
Record EventState : Type := {
  stopped : bool;
  world : World;
  journal : list Action
}.

(** Handler code: a state monad over [EventState]. *)
Definition Eff (A : Type) : Type := EventState -> A * EventState.

Definition eff_ret {A : Type} (a : A) : Eff A := fun st => (a, st).

Definition eff_bind {A B : Type} (c : Eff A) (k : A -> Eff B) : Eff B :=
  fun st => let (a, st') := c st in k a st'.

(** [e.stopPropagation()] on the event being dispatched. *)
Definition stopPropagation : Eff unit :=
  fun st =>
    (tt, {| stopped := true;
            world := world st;
            journal := journal st ++ [PropagationStopped] |}).

(** Calling a callback of type [(id: number) => void] that the caller
    passed in. *)
Definition invoke (f : JS.number -> World -> World) (arg : JS.number)
  : Eff unit :=
  fun st =>
    (tt, {| stopped := stopped st;
            world := f arg (world st);
            journal := journal st ++ [CallbackInvoked arg] |}).

Definition Handler : Type := Eff unit.

(** The value of a JSX attribute. *)
Inductive PropValue : Type :=
| Str (s : string)
| Style (declarations : list (string * string))
| OnEvent (h : Handler).

(** A rendered node: text, an element, or one of the values React renders
    as nothing ([false], [null], [undefined]). *)
#[warnings="-register-all"]
Inductive Node : Type :=
| Text (s : string)
| Empty
| Element (type : string) (props : list (string * PropValue))
          (children : list Node).

Fixpoint lookup_prop (name : string) (props : list (string * PropValue))
  : option PropValue :=
  match props with
  | [] => None
  | (k, v) :: rest => if String.eqb k name then Some v else lookup_prop name rest
  end.

Definition prop (name : string) (n : Node) : option PropValue :=
  match n with
  | Element _ props _ => lookup_prop name props
  | _ => None
  end.

Definition string_prop (name : string) (n : Node) : option string :=
  match prop name n with
  | Some (Str s) => Some s
  | _ => None
  end.

Definition onClick (n : Node) : option Handler :=
  match prop "onClick" n with
  | Some (OnEvent h) => Some h
  | _ => None
  end.

Definition has_type (t : string) (n : Node) : bool :=
  match n with
  | Element t' _ _ => String.eqb t' t
  | _ => false
  end.

Definition children_of (n : Node) : list Node :=
  match n with
  | Element _ _ cs => cs
  | _ => []
  end.

(** The first node, in document order, that satisfies [p]. *)
Fixpoint find (p : Node -> bool) (n : Node) : option Node :=
  if p n then Some n
  else
    match n with
    | Element _ _ cs =>
        (fix first (l : list Node) : option Node :=
           match l with
           | [] => None
           | c :: l' =>
               match find p c with
               | Some r => Some r
               | None => first l'
               end
           end) cs
    | _ => None
    end.

Definition find_type (t : string) (n : Node) : option Node :=
  find (has_type t) n.

(** The text a node shows: its text descendants in document order. *)
Fixpoint textContent (n : Node) : string :=
  match n with
  | Text s => s
  | Empty => ""
  | Element _ _ cs =>
      (fix all (l : list Node) : string :=
         match l with
         | [] => ""
         | c :: l' => textContent c ++ all l'
         end) cs
  end.

Definition handlers_at (n : Node) : list Handler :=
  match onClick n with
  | Some h => [h]
  | None => []
  end.

(** The click handlers on the way from the first node that satisfies [p]
    up to the root [n], innermost first. *)
Fixpoint bubble_path (p : Node -> bool) (n : Node) : option (list Handler) :=
  if p n then Some (handlers_at n)
  else
    match n with
    | Element _ _ cs =>
        match
          (fix first (l : list Node) : option (list Handler) :=
             match l with
             | [] => None
             | c :: l' =>
                 match bubble_path p c with
                 | Some hs => Some hs
                 | None => first l'
                 end
             end) cs
        with
        | Some hs => Some (hs ++ handlers_at n)%list
        | None => None
        end
    | _ => None
    end.

(** Bubbling: the handlers run innermost first, and a handler that stops
    the propagation is the last one to run. *)
Fixpoint dispatch (path : list Handler) (st : EventState) : EventState :=
  match path with
  | [] => st
  | h :: rest =>
      let st' := snd (h st) in
      if stopped st' then st' else dispatch rest st'
  end.

(** A click on the first node of [root] that satisfies [target], with
    [root] mounted below ancestors whose click handlers are [outer]
    (innermost first). A fresh event is dispatched. *)
Definition click (target : Node -> bool) (root : Node)
           (outer : list Handler) (w : World) : option EventState :=
  match bubble_path target root with
  | Some inner =>
      Some (dispatch (inner ++ outer)%list
              {| stopped := false; world := w; journal := [] |})
  | None => None
  end.

(** ** Rendering *)

(** A render runs in the caller's world and returns or throws. *)
Definition Render (A : Type) : Type := World -> JS.completion (A * World).

Definition ret {A : Type} (a : A) : Render A := fun w => JS.Normal (a, w).

Definition bind {A B : Type} (c : Render A) (k : A -> Render B) : Render B :=
  fun w =>
    match c w with
    | JS.Normal (a, w') => k a w'
    | JS.Throw e => JS.Throw e
    end.

(** A platform call that touches nothing of the world. *)
Definition call {A : Type} (c : JS.completion A) : Render A :=
  fun w =>
    match c with
    | JS.Normal a => JS.Normal (a, w)
    | JS.Throw e => JS.Throw e
    end.

(** ** Class names *)

Definition is_space (c : ascii) : bool :=
  let n := nat_of_ascii c in
  (n =? 32)%nat || (n =? 9)%nat || (n =? 10)%nat || (n =? 12)%nat
  || (n =? 13)%nat.

Definition flush (cur : string) : list string :=
  if String.eqb cur "" then [] else [cur].

Fixpoint split_spaces (s cur : string) : list string :=
  match s with
  | EmptyString => flush cur
  | String c r =>
      if is_space c then (flush cur ++ split_spaces r "")%list
      else split_spaces r (cur ++ String c "")
  end.

(** The classes of an element: the tokens of its [className]. *)
Definition classList (n : Node) : list string :=
  match string_prop "className" n with
  | Some s => split_spaces s ""
  | None => []
  end.

Definition has_class (c : string) (n : Node) : bool :=
  existsb (String.eqb c) (classList n).

(** ** Styling erased *)

Definition is_styling (name : string) : bool :=
  String.eqb name "className" || String.eqb name "style".

Fixpoint unstyled (n : Node) : Node :=
  match n with
  | Element t props cs =>
      Element t
        (filter (fun kv => negb (is_styling (fst kv))) props)
        ((fix all (l : list Node) : list Node :=
            match l with
            | [] => []
            | c :: l' => unstyled c :: all l'
            end) cs)
  | _ => n
  end.

End Elements.

Arguments EventState : clear implicits.
Arguments Eff : clear implicits.
Arguments Handler : clear implicits.
Arguments PropValue : clear implicits.
Arguments Node : clear implicits.
Arguments Render : clear implicits.

End React.

Declare Scope render_scope.
Delimit Scope render_scope with render.
Notation "x <- c ;; k" := (React.bind c (fun x => k))
  (at level 61, c at next level, right associativity) : render_scope.
Declare Scope eff_scope.
Delimit Scope eff_scope with eff.
Notation "c ;; k" := (React.eff_bind c (fun _ => k))
  (at level 61, right associativity) : eff_scope.

(* ================================================================== *)
(** * The component's interface (the same in both variants) *)
(* ================================================================== *)

Inductive ExpenseCategory : Type :=
| Food
| Transportation
| Entertainment
| Other.

(** A category is the string its name spells. *)
Definition category_string (c : ExpenseCategory) : string :=
  match c with
  | Food => "Food"
  | Transportation => "Transportation"
  | Entertainment => "Entertainment"
  | Other => "Other"
  end.

(** The props; an optional prop that is left out is [None]. *)
Record ExpenseCardProps {World : Type} : Type := {
  id : JS.number;
  description : string;
  amount : JS.number;
  category : ExpenseCategory;
  date : string;
  onDelete : option (JS.number -> World -> World);
  highlighted : option bool;
  showCategory : option bool
}.
Arguments ExpenseCardProps : clear implicits.

(** A default value in a destructuring pattern. *)
Definition default {A : Type} (d : A) (v : option A) : A :=
  match v with
  | Some a => a
  | None => d
  end.

Definition newline : string := String (ascii_of_nat 10) "".

(* ================================================================== *)
(** * src/components/ExpenseCard/ExpenseCard.tsx *)
(* ================================================================== *)

Module Css.

Import React.

Section Component.

Context {World : Type}.

(** [handleDelete] (lines 56-61), closed over [onDelete] and [id]; its
    argument [e] is the event being dispatched. *)
Definition handleDelete (onDelete : option (JS.number -> World -> World))
           (id : JS.number) : Handler World :=
  (stopPropagation ;;
   match onDelete with
   | Some f => invoke f id
   | None => eff_ret tt
   end)%eff.

Definition delete_style : list (string * string) :=
  [ ("position", "absolute");
    ("top", "8px");
    ("right", "8px");
    ("background", "#ef4444");
    ("color", "white");
    ("border", "none");
    ("borderRadius", "50%");
    ("width", "24px");
    ("height", "24px");
    ("cursor", "pointer");
    ("fontSize", "16px");
    ("display", "flex");
    ("alignItems", "center");
    ("justifyContent", "center") ].

(** [ExpenseCard] (lines 31-109).  The "// UPDATED" of line 64 stands
    between [return (] and the opening tag and is a comment; those of
    lines 67 and 80 stand among the children of an element and are text. *)
Definition ExpenseCard (env : JS.Date.Environment)
           (props : ExpenseCardProps World) : Render World (Node World) :=
  let id := id props in
  let description := description props in
  let amount := amount props in
  let category := category props in
  let date := date props in
  let highlighted := default false (highlighted props) in
  let showCategory := default true (showCategory props) in
  let onDelete := onDelete props in
  (formattedAmount <- ret (JS.NumberFormat.format amount) ;;
   formattedDate <-
     call (JS.Date.toLocaleDateString env (JS.Date.construct env date)) ;;
   let handleDelete := handleDelete onDelete id in
   ret
     (Element "article"
        [ ("className",
           Str ("expense-card "
                ++ (if highlighted then "expense-card--highlighted" else ""))) ]
        [ Element "div" [ ("className", Str "expense-header") ]
            [ Text "// UPDATED";
              (if showCategory
               then Element "span" [ ("className", Str "expense-category") ]
                      [ Text (category_string category) ]
               else Empty);
              Element "time"
                [ ("className", Str "expense-date"); ("dateTime", Str date) ]
                [ Text formattedDate ] ];
          Element "div" [ ("className", Str "expense-body") ]
            [ Element "h3" [ ("className", Str "expense-description") ]
                [ Text description ];
              Element "p" [ ("className", Str "expense-amount") ]
                [ Text formattedAmount ];
              Text "// UPDATED";
              match onDelete with
              | Some _ =>
                  Element "button"
                    [ ("className", Str "expense-delete");
                      ("onClick", OnEvent handleDelete);
                      ("aria-label", Str "Delete expense");
                      ("style", Style delete_style) ]
                    [ Text JS.times_sign ]
              | None => Empty
              end ] ]))%render.

End Component.

End Css.

(* ================================================================== *)
(** * The Tailwind variant of ExpenseCard *)
(* ================================================================== *)

Module Tailwind.

Import React.

Section Component.

Context {World : Type}.

(** [handleDelete] (lines 45-50). *)
Definition handleDelete (onDelete : option (JS.number -> World -> World))
           (id : JS.number) : Handler World :=
  (stopPropagation ;;
   match onDelete with
   | Some f => invoke f id
   | None => eff_ret tt
   end)%eff.

(** The fixed part of the template literal of the root's class name. *)
Definition article_classes : string :=
  newline ++
  "      relative" ++ newline ++
  "      bg-white rounded-lg p-4 mb-3 shadow-md" ++ newline ++
  "      transition-all duration-200 border" ++ newline ++
  "      hover:shadow-lg" ++ newline ++
  "      ".

Definition delete_classes : string :=
  newline ++
  "            absolute top-2 right-2" ++ newline ++
  "            bg-red-500 hover:bg-red-600" ++ newline ++
  "            text-white border-0 rounded-full" ++ newline ++
  "            w-6 h-6 cursor-pointer text-base" ++ newline ++
  "            flex items-center justify-center" ++ newline ++
  "            transition-colors duration-200" ++ newline ++
  "            focus:outline-none focus:ring-2 focus:ring-red-400" ++ newline ++
  "            ".

(** [ExpenseCard] (lines 20-92). *)
Definition ExpenseCard (env : JS.Date.Environment)
           (props : ExpenseCardProps World) : Render World (Node World) :=
  let id := id props in
  let description := description props in
  let amount := amount props in
  let category := category props in
  let date := date props in
  let highlighted := default false (highlighted props) in
  let showCategory := default true (showCategory props) in
  let onDelete := onDelete props in
  (formattedAmount <- ret (JS.NumberFormat.format amount) ;;
   formattedDate <-
     call (JS.Date.toLocaleDateString env (JS.Date.construct env date)) ;;
   let handleDelete := handleDelete onDelete id in
   ret
     (Element "article"
        [ ("className",
           Str (article_classes
                ++ (if highlighted then "border-orange-500 bg-orange-50"
                    else "border-blue-500"))) ]
        [ Element "div"
            [ ("className", Str "flex justify-between items-center mb-2") ]
            [ (if showCategory
               then Element "span"
                      [ ("className",
                         Str "inline-block bg-blue-500 text-white px-2 py-1 rounded text-xs font-semibold uppercase") ]
                      [ Text (category_string category) ]
               else Empty);
              Element "time"
                [ ("className", Str "text-gray-500 text-sm");
                  ("dateTime", Str date) ]
                [ Text formattedDate ] ];
          Element "div" [ ("className", Str "space-y-2") ]
            [ Element "h3"
                [ ("className", Str "mb-2 text-base font-medium text-gray-900") ]
                [ Text description ];
              Element "p"
                [ ("className", Str "text-green-600 text-lg font-bold m-0") ]
                [ Text formattedAmount ];
              match onDelete with
              | Some _ =>
                  Element "button"
                    [ ("className", Str delete_classes);
                      ("onClick", OnEvent handleDelete);
                      ("aria-label", Str "Delete expense") ]
                    [ Text "x" ]
              | None => Empty
              end ] ]))%render.

End Component.

End Tailwind.

(* ================================================================== *)
(** * The two variants side by side, and sample inputs *)
(* ================================================================== *)

Inductive variant : Type :=
| css
| tailwind.

Definition ExpenseCard {World : Type} (v : variant)
  : JS.Date.Environment -> ExpenseCardProps World
    -> React.Render World (React.Node World) :=
  match v with
  | css => Css.ExpenseCard
  | tailwind => Tailwind.ExpenseCard
  end.

Module Sample.

Import JS.

(** A host on UTC, and a host five hours west of UTC all year round;
    both hosts parse nothing but the date-only forms. *)
Definition utc : Date.Environment :=
  {| Date.LocalTZA := fun _ => 0;
     Date.parseFallback := fun _ => None |}.

Definition utc_minus_5 : Date.Environment :=
  {| Date.LocalTZA := fun _ => -18000000;
     Date.parseFallback := fun _ => None |}.

(** The doubles 7, 1234.5, 0 and -5. *)
Definition seven : number := S754_finite false 7881299347898368 (-50).
Definition d1234_5 : number := S754_finite false 5429388417957888 (-42).
Definition zero : number := S754_zero false.
Definition minus_5 : number := S754_finite true 5629499534213120 (-50).

(** The doubles of the decimals 1.005 and 0.29; each lies a little below
    its decimal. *)
Definition d1_005 : number := S754_finite false 4526117625507348 (-52).
Definition d0_29 : number := S754_finite false 5224175567749775 (-54).

(** A caller that keeps the ids it was asked to delete. *)
Definition remember (id : number) (deleted : list number) : list number :=
  id :: deleted.

Definition expense (amount : number) (date : string)
           (onDelete : option (number -> list number -> list number))
           (highlighted showCategory : option bool)
  : ExpenseCardProps (list number) :=
  {| id := seven;
     description := "Lunch";
     amount := amount;
     category := Food;
     date := date;
     onDelete := onDelete;
     highlighted := highlighted;
     showCategory := showCategory |}.

Definition lunch : ExpenseCardProps (list number) :=
  expense d1234_5 "2024-03-05" (Some remember) None None.

End Sample.

(* ================================================================== *)
(** * A user who clicks again and again *)
(* ================================================================== *)

(** The caller's world after [n] clicks on the first node of [root] that
    satisfies [target]; the card is not rendered anew in between, and each
    click dispatches an event of its own. *)
Fixpoint click_times {World : Type} (n : nat)
         (target : React.Node World -> bool) (root : React.Node World)
         (outer : list (React.Handler World)) (w : World) : option World :=
  match n with
  | O => Some w
  | S k =>
      match click_times k target root outer w with
      | Some w' => option_map React.world (React.click target root outer w')
      | None => None
      end
  end.

(* ================================================================== *)
(** * A tree without its event handlers *)
(* ================================================================== *)

Definition is_handler {World : Type} (v : React.PropValue World) : bool :=
  match v with
  | React.OnEvent _ => true
  | _ => false
  end.

(** The tree with every attribute that holds a handler taken away; the
    elements, the other attributes and the texts stay. *)
Fixpoint without_handlers {World : Type} (n : React.Node World)
  : React.Node World :=
  match n with
  | React.Element t props cs =>
      React.Element t
        (filter (fun kv => negb (is_handler (snd kv))) props)
        ((fix all (l : list (React.Node World)) : list (React.Node World) :=
            match l with
            | [] => []
            | c :: l' => without_handlers c :: all l'
            end) cs)
  | _ => n
  end.

(* ================================================================== *)
(** * Properties *)
(* ================================================================== *)

Import JS.

(** ** Decimal numerals *)

Section Decimal.

Lemma pow2_pos (f : nat) : 0 < 2 ^ Z.of_nat f.
Proof. apply Z.pow_pos_nonneg; lia. Qed.

Lemma div_below (b : Z) (f : nat) (n : Z) :
  2 <= b -> 0 <= n < 2 ^ Z.of_nat (S f) -> 0 <= n / b < 2 ^ Z.of_nat f.
Proof.
  intros Hb [Hn Hlt].
  rewrite Nat2Z.inj_succ, Z.pow_succ_r in Hlt by lia.
  pose proof (pow2_pos f) as Hp.
  split.
  - apply Z.div_pos; lia.
  - apply Z.div_lt_upper_bound; nia.
Qed.

Lemma below_fuel (n : Z) :
  0 <= n -> 0 <= n < 2 ^ Z.of_nat (S (Z.to_nat (Z.log2 n))).
Proof.
  intros Hn. split; [exact Hn|].
  rewrite Nat2Z.inj_succ, Z2Nat.id by apply Z.log2_nonneg.
  destruct (Z.eq_dec n 0) as [->|Hne].
  - reflexivity.
  - apply Z.log2_spec. lia.
Qed.

Lemma decimal_fuel_indep (f : nat) :
  forall (g : nat) (n : Z),
    0 <= n < 2 ^ Z.of_nat (S f) -> 0 <= n < 2 ^ Z.of_nat (S g) ->
    decimal_fuel (S f) n = decimal_fuel (S g) n.
Proof.
  induction f as [|f IH]; intros g n Hf Hg.
  - assert ((n <? 10) = true) as Hlt by (apply Z.ltb_lt; change (2 ^ Z.of_nat 1) with 2 in Hf; lia).
    cbn [decimal_fuel]. now rewrite Hlt.
  - cbn [decimal_fuel]. destruct (n <? 10) eqn:Hlt; [reflexivity|].
    apply Z.ltb_ge in Hlt.
    destruct g as [|g].
    + change (2 ^ Z.of_nat 1) with 2 in Hg. lia.
    + f_equal. apply IH; apply div_below; lia.
Qed.

Lemma decimal_unfold (n : Z) :
  0 <= n ->
  decimal n =
  (if n <? 10 then "" else decimal (n / 10)) ++ String (digit (n mod 10)) "".
Proof.
  intros Hn. unfold decimal at 1. cbn [decimal_fuel].
  destruct (n <? 10) eqn:Hlt; [reflexivity|].
  apply Z.ltb_ge in Hlt. f_equal.
  assert (0 <= n / 10) as Hq by (apply Z.div_pos; lia).
  pose proof (below_fuel n Hn) as Hb.
  destruct (Z.to_nat (Z.log2 n)) as [|k] eqn:Hk.
  - change (2 ^ Z.of_nat 1) with 2 in Hb. lia.
  - unfold decimal. apply decimal_fuel_indep.
    + apply div_below; lia.
    + apply below_fuel; exact Hq.
Qed.

Lemma decimal_1 (n : Z) : 0 <= n < 10 -> decimal n = String (digit n) "".
Proof.
  intros H. rewrite decimal_unfold by lia.
  replace (n <? 10) with true by (symmetry; apply Z.ltb_lt; lia).
  now rewrite Z.mod_small by lia.
Qed.

Lemma decimal_2 (n : Z) :
  10 <= n < 100 ->
  decimal n = String (digit (n / 10)) (String (digit (n mod 10)) "").
Proof.
  intros H. rewrite decimal_unfold by lia.
  replace (n <? 10) with false by (symmetry; apply Z.ltb_ge; lia).
  rewrite decimal_1; [reflexivity|].
  split; [apply Z.div_pos; lia | apply Z.div_lt_upper_bound; lia].
Qed.

Lemma decimal_3 (n : Z) :
  100 <= n < 1000 ->
  decimal n =
  String (digit (n / 10 / 10))
    (String (digit (n / 10 mod 10)) (String (digit (n mod 10)) "")).
Proof.
  intros H. rewrite decimal_unfold by lia.
  replace (n <? 10) with false by (symmetry; apply Z.ltb_ge; lia).
  rewrite decimal_2; [reflexivity|].
  split; [apply Z.div_le_lower_bound; lia | apply Z.div_lt_upper_bound; lia].
Qed.

Lemma decimal_4 (n : Z) :
  1000 <= n < 10000 ->
  decimal n =
  String (digit (n / 10 / 10 / 10))
    (String (digit (n / 10 / 10 mod 10))
       (String (digit (n / 10 mod 10)) (String (digit (n mod 10)) ""))).
Proof.
  intros H. rewrite decimal_unfold by lia.
  replace (n <? 10) with false by (symmetry; apply Z.ltb_ge; lia).
  rewrite decimal_3; [reflexivity|].
  split; [apply Z.div_le_lower_bound; lia | apply Z.div_lt_upper_bound; lia].
Qed.

End Decimal.

(** ** The shortest decimal of a double *)

Section Shortest.

Import NumberFormat.

Lemma pow10_pos (k : Z) : (0 < pow10 k)%Q.
Proof. apply Qpower_0_lt. reflexivity. Qed.

Lemma pow10_add (a b : Z) : (pow10 (a + b) == pow10 a * pow10 b)%Q.
Proof. apply Qpower_plus. discriminate. Qed.

Lemma pow10_of_Z (k : Z) : 0 <= k -> (pow10 k == inject_Z (10 ^ k))%Q.
Proof. intros H. unfold pow10. now rewrite Zpower_Qpower. Qed.

Lemma pow2_of_Z (k : Z) : 0 <= k -> (2 ^ k == inject_Z (2 ^ k))%Q.
Proof. intros H. now rewrite Zpower_Qpower. Qed.

Lemma pow2_pos_Q (e : Z) : (0 < 2 ^ e)%Q.
Proof. apply Qpower_0_lt. reflexivity. Qed.

Lemma pow2_half (e : Z) : (2 ^ (e - 1) == 2 ^ e * (1 # 2))%Q.
Proof.
  unfold Z.sub. rewrite Qpower_plus by discriminate. reflexivity.
Qed.

Lemma pow2_quarter (e : Z) : (2 ^ (e - 2) == 2 ^ e * (1 # 4))%Q.
Proof.
  unfold Z.sub. rewrite Qpower_plus by discriminate. reflexivity.
Qed.

(** The bounds in terms of the unit in the last place [u = 2^e]. *)
Lemma upper_bound_eq (m : positive) (e : Z) :
  (upper_bound m e == binary_value m e + 2 ^ e * (1 # 2))%Q.
Proof.
  unfold upper_bound, binary_value. rewrite pow2_half.
  rewrite inject_Z_plus, inject_Z_mult.
  change (inject_Z 2) with 2%Q. change (inject_Z 1) with 1%Q. ring.
Qed.

Lemma lower_bound_eq (m : positive) (e : Z) :
  (lower_bound m e ==
   binary_value m e
   - 2 ^ e * (if lower_is_closer m e then 1 # 4 else 1 # 2))%Q.
Proof.
  unfold lower_bound, binary_value. destruct (lower_is_closer m e).
  - rewrite pow2_quarter. unfold Z.sub.
    rewrite inject_Z_plus, inject_Z_mult.
    change (inject_Z 4) with 4%Q. change (inject_Z (- (1))) with (- (1))%Q.
    ring.
  - rewrite pow2_half. unfold Z.sub.
    rewrite inject_Z_plus, inject_Z_mult.
    change (inject_Z 2) with 2%Q. change (inject_Z (- (1))) with (- (1))%Q.
    ring.
Qed.

Lemma bounds_around_value (m : positive) (e : Z) :
  (lower_bound m e < binary_value m e < upper_bound m e)%Q
  /\ (upper_bound m e - lower_bound m e <= 2 ^ e)%Q.
Proof.
  rewrite upper_bound_eq, lower_bound_eq.
  pose proof (pow2_pos_Q e) as Hu.
  destruct (lower_is_closer m e); repeat split; lra.
Qed.

Lemma Qlt_bool_iff (x y : Q) : Qlt_bool x y = true <-> (x < y)%Q.
Proof.
  unfold Qlt_bool. rewrite negb_true_iff. split.
  - intros H. apply Qnot_le_lt. intros Hle.
    apply Qle_bool_iff in Hle. congruence.
  - intros H. destruct (Qle_bool y x) eqn:Hb; [|reflexivity].
    apply Qle_bool_iff in Hb. lra.
Qed.

Lemma rounds_to_iff (m : positive) (e : Z) (q : Q) :
  rounds_to m e q = true <-> in_interval m e q.
Proof.
  unfold rounds_to, in_interval. destruct (Z.even (Zpos m));
    rewrite andb_true_iff; [rewrite !Qle_bool_iff | rewrite !Qlt_bool_iff];
    tauto.
Qed.


Lemma in_interval_value (m : positive) (e : Z) :
  in_interval m e (binary_value m e).
Proof.
  unfold in_interval. destruct (bounds_around_value m e) as [[H1 H2] _].
  destruct (Z.even (Zpos m)); lra.
Qed.

(** The interval is convex. *)
Lemma in_interval_between (m : positive) (e : Z) (a q b : Q) :
  in_interval m e a -> in_interval m e b -> (a <= q <= b)%Q ->
  in_interval m e q.
Proof.
  unfold in_interval. destruct (Z.even (Zpos m)); intros; lra.
Qed.

Lemma in_interval_close (m : positive) (e : Z) (a b : Q) :
  in_interval m e a -> in_interval m e b -> (a - b <= 2 ^ e)%Q.
Proof.
  unfold in_interval. destruct (bounds_around_value m e) as [_ Hw].
  destruct (Z.even (Zpos m)); intros; lra.
Qed.

Lemma binary_value_pos (m : positive) (e : Z) : (0 < binary_value m e)%Q.
Proof.
  unfold binary_value. apply Qmult_lt_0_compat; [reflexivity | apply pow2_pos_Q].
Qed.

(** The two multiples of [10^k] around the value. *)
Lemma floor_brackets (v : Q) (k : Z) :
  (inject_Z (Qfloor (v / pow10 k)) * pow10 k <= v
   < inject_Z (Qfloor (v / pow10 k) + 1) * pow10 k)%Q.
Proof.
  pose proof (pow10_pos k) as Hp.
  pose proof (Qfloor_le (v / pow10 k)) as Hlo.
  pose proof (Qlt_floor (v / pow10 k)) as Hhi.
  assert (v == v / pow10 k * pow10 k)%Q as Hv by (field; lra).
  split.
  - rewrite Hv at 2. apply Qmult_le_compat_r; [exact Hlo | lra].
  - rewrite Hv at 1. apply Qmult_lt_compat_r; [exact Hp | exact Hhi].
Qed.

Lemma at_level_sound (m : positive) (e k s : Z) :
  at_level m e k = Some s ->
  rounds_to m e (inject_Z s * pow10 k) = true /\ 0 <= s.
Proof.
  unfold at_level.
  set (s1 := Qfloor (binary_value m e / pow10 k)).
  assert (0 <= s1) as Hs1.
  { change 0 with (Qfloor 0). apply Qfloor_resp_le.
    pose proof (binary_value_pos m e). pose proof (pow10_pos k).
    apply Qle_shift_div_l; lra. }
  destruct (rounds_to m e (inject_Z s1 * pow10 k)) eqn:H1;
    destruct (rounds_to m e (inject_Z (s1 + 1) * pow10 k)) eqn:H2;
    try discriminate;
    repeat match goal with
           | |- context [if ?b then _ else _] => destruct b
           end;
    intros [= <-]; split; (assumption || lia).
Qed.

Lemma at_level_complete (m : positive) (e k s : Z) :
  rounds_to m e (inject_Z s * pow10 k) = true -> at_level m e k <> None.
Proof.
  intros Hs. apply rounds_to_iff in Hs.
  pose proof (floor_brackets (binary_value m e) k) as [Hlo Hhi].
  pose proof (in_interval_value m e) as Hv.
  pose proof (pow10_pos k) as Hp.
  unfold at_level.
  set (s1 := Qfloor (binary_value m e / pow10 k)) in *.
  destruct (Z_le_gt_dec s s1) as [Hle | Hgt].
  - assert (rounds_to m e (inject_Z s1 * pow10 k) = true) as H1.
    { apply rounds_to_iff.
      apply (in_interval_between m e _ _ _ Hs Hv). split; [|exact Hlo].
      apply Qmult_le_compat_r; [|lra]. now rewrite <- Zle_Qle. }
    rewrite H1.
    destruct (rounds_to m e (inject_Z (s1 + 1) * pow10 k));
      repeat match goal with
             | |- context [if ?b then _ else _] => destruct b
             end; discriminate.
  - assert (rounds_to m e (inject_Z (s1 + 1) * pow10 k) = true) as H2.
    { apply rounds_to_iff.
      apply (in_interval_between m e _ _ _ Hv Hs). split; [lra|].
      apply Qmult_le_compat_r; [|lra]. rewrite <- Zle_Qle. lia. }
    rewrite H2.
    destruct (rounds_to m e (inject_Z s1 * pow10 k));
      repeat match goal with
             | |- context [if ?b then _ else _] => destruct b
             end; discriminate.
Qed.

(** The search stops at the first level, from the top, that has a
    decimal in the interval. *)
Lemma shortest_from_stops (m : positive) (e k0 : Z) (fuel : nat) :
  forall k,
    at_level m e k0 <> None -> k0 <= k -> k - k0 <= Z.of_nat fuel ->
    exists s k',
      shortest_from fuel m e k = (s, k')
      /\ k0 <= k' <= k /\ at_level m e k' = Some s.
Proof.
  induction fuel as [|fuel IH]; intros k H0 Hk Hfuel.
  - assert (k = k0) as -> by lia. cbn [shortest_from].
    destruct (at_level m e k0) as [s|] eqn:Hat; [|congruence].
    exists s, k0. repeat split; (reflexivity || lia || assumption).
  - cbn [shortest_from].
    destruct (at_level m e k) as [s|] eqn:Hat.
    + exists s, k. repeat split; (reflexivity || lia || assumption).
    + assert (k <> k0) by (intros ->; congruence).
      destruct (IH (k - 1) H0) as (s & k' & Heq & Hr & Hs); [lia | lia |].
      exists s, k'. repeat split; (assumption || lia).
Qed.


Lemma pow10_inv (j : Z) : 0 <= j -> (pow10 (- j) == / inject_Z (10 ^ j))%Q.
Proof.
  intros H. unfold pow10. rewrite Qpower_opp. now rewrite Zpower_Qpower.
Qed.

Lemma pow10_cancel (j : Z) : (pow10 (- j) * pow10 j == 1)%Q.
Proof.
  rewrite <- pow10_add. replace (- j + j) with 0 by lia. reflexivity.
Qed.

(** When the decimals of [j] fraction digits are further apart than the
    doubles around [m * 2^e], the unit in the last place is below
    [10^-j]. *)
Lemma ulp_below_decimal (e j : Z) :
  0 <= j -> e < 0 -> 10 ^ j < 2 ^ (- e) ->
  e <= - j /\ (2 ^ e * pow10 j < 1)%Q.
Proof.
  intros Hj He Hlt. split.
  - destruct (Z_le_gt_dec e (- j)) as [H|H]; [exact H|].
    assert (2 ^ (- e) <= 2 ^ j) by (apply Z.pow_le_mono_r; lia).
    assert (2 ^ j <= 10 ^ j) by (apply Z.pow_le_mono_l; lia).
    lia.
  - replace e with (- (- e)) at 1 by lia.
    rewrite Qpower_opp, pow2_of_Z by lia.
    rewrite pow10_of_Z by lia.
    assert (0 < 2 ^ (- e)) as Hpos by (apply Z.pow_pos_nonneg; lia).
    assert (0 < inject_Z (2 ^ (- e)))%Q as HposQ
        by (rewrite <- (Zlt_Qlt 0); exact Hpos).
    rewrite Qmult_comm. apply Qlt_shift_div_r; [exact HposQ|].
    rewrite Qmult_1_l. now rewrite <- Zlt_Qlt.
Qed.

(** A decimal of [j] fraction digits that rounds to the double is its
    shortest decimal, when the doubles there are closer together than
    such decimals. *)
Lemma shortest_of_decimal (m : positive) (e n j : Z) :
  0 <= j -> e < 0 -> 10 ^ j < 2 ^ (- e) ->
  rounds_to m e (inject_Z n * pow10 (- j)) = true ->
  exists s k,
    shortest m e = (s, k)
    /\ (inject_Z s * pow10 k == inject_Z n * pow10 (- j))%Q.
Proof.
  intros Hj He Hlt Hn.
  destruct (ulp_below_decimal e j Hj He Hlt) as [Hej Hu].
  pose proof (at_level_complete m e (- j) n Hn) as Hlevel.
  assert (0 <= top_level m e) as Htop by (unfold top_level; lia).
  destruct (shortest_from_stops m e (- j)
              (Z.to_nat (top_level m e - Z.min e 0)) (top_level m e) Hlevel)
    as (s & k & Heq & Hk & Hat); [lia | lia |].
  exists s, k. split; [exact Heq|].
  destruct (at_level_sound m e k s Hat) as [Hs _].
  apply rounds_to_iff in Hs. apply rounds_to_iff in Hn.
  pose proof (pow10_pos j) as HP.
  pose proof (pow10_cancel j) as Hc.
  (* the decimal found is a multiple of 10^-j too *)
  assert (inject_Z s * pow10 k
          == inject_Z (s * 10 ^ (k + j)) * pow10 (- j))%Q as Hmult.
  { replace k with ((k + j) + - j) at 1 by lia.
    rewrite pow10_add, pow10_of_Z, inject_Z_mult by lia. ring. }
  assert (s * 10 ^ (k + j) = n) as Hsame.
  { pose proof (in_interval_close m e _ _ Hs Hn) as H1.
    pose proof (in_interval_close m e _ _ Hn Hs) as H2.
    rewrite Hmult in H1, H2.
    set (a := s * 10 ^ (k + j)) in *.
    assert (inject_Z a - inject_Z n < 1)%Q as Ha.
    { apply Qle_lt_trans with (2 ^ e * pow10 j)%Q; [|exact Hu].
      setoid_replace (inject_Z a - inject_Z n)%Q
        with ((inject_Z a * pow10 (- j) - inject_Z n * pow10 (- j)) * pow10 j)%Q
        by (transitivity ((inject_Z a - inject_Z n) * (pow10 (- j) * pow10 j))%Q;
            [rewrite Hc; ring | ring]).
      apply Qmult_le_compat_r; [exact H1 | lra]. }
    assert (inject_Z n - inject_Z a < 1)%Q as Hb.
    { apply Qle_lt_trans with (2 ^ e * pow10 j)%Q; [|exact Hu].
      setoid_replace (inject_Z n - inject_Z a)%Q
        with ((inject_Z n * pow10 (- j) - inject_Z a * pow10 (- j)) * pow10 j)%Q
        by (transitivity ((inject_Z n - inject_Z a) * (pow10 (- j) * pow10 j))%Q;
            [rewrite Hc; ring | ring]).
      apply Qmult_le_compat_r; [exact H2 | lra]. }
    assert (inject_Z a < inject_Z (n + 1))%Q as Ha'
        by (rewrite inject_Z_plus; change (inject_Z 1) with 1%Q; lra).
    assert (inject_Z n < inject_Z (a + 1))%Q as Hb'
        by (rewrite inject_Z_plus; change (inject_Z 1) with 1%Q; lra).
    rewrite <- Zlt_Qlt in Ha', Hb'. lia. }
  rewrite Hmult, Hsame. reflexivity.
Qed.

(** Rounding to hundredths, ties away from zero, in integers. *)
Lemma half_up_hundredths (n j : Z) :
  0 <= j ->
  Qfloor (inject_Z n * pow10 (- j) * 100 + (1 # 2))%Q
  = (200 * n + 10 ^ j) / (2 * 10 ^ j).
Proof.
  intros Hj. rewrite Zdiv_Qdiv. apply Qfloor_comp.
  rewrite pow10_inv by lia.
  assert (0 < 10 ^ j) as Hpos by (apply Z.pow_pos_nonneg; lia).
  assert (0 < inject_Z (10 ^ j))%Q as HposQ
      by (rewrite <- (Zlt_Qlt 0); exact Hpos).
  rewrite inject_Z_plus, !inject_Z_mult.
  change (inject_Z 200) with 200%Q. change (inject_Z 2) with 2%Q.
  field. lra.
Qed.

Lemma cents_of_decimal (m : positive) (e n j : Z) :
  0 <= j -> e < 0 -> 10 ^ j < 2 ^ (- e) ->
  rounds_to m e (inject_Z n * pow10 (- j)) = true ->
  cents m e = (200 * n + 10 ^ j) / (2 * 10 ^ j).
Proof.
  intros Hj He Hlt Hn.
  destruct (shortest_of_decimal m e n j Hj He Hlt Hn) as (s & k & Heq & Hval).
  unfold cents. rewrite Heq. rewrite <- half_up_hundredths by exact Hj.
  apply Qfloor_comp. rewrite <- Hval.
  replace (k + 2) with (k + 2)%Z by reflexivity.
  rewrite pow10_add. change (pow10 2) with 100%Q. ring.
Qed.

Lemma shortest_from_nonneg (m : positive) (e : Z) (fuel : nat) :
  forall k, 0 <= fst (shortest_from fuel m e k).
Proof.
  induction fuel as [|fuel IH]; intros k; cbn [shortest_from];
    destruct (at_level m e k) as [s|] eqn:Hat;
    try (apply at_level_sound in Hat; cbn; tauto).
  - unfold exact_decimal. destruct (0 <=? e); cbn [fst];
      (apply Z.mul_nonneg_nonneg; [lia | apply Z.pow_nonneg; lia]).
  - apply IH.
Qed.

Lemma shortest_nonneg (m : positive) (e : Z) : 0 <= fst (shortest m e).
Proof. apply shortest_from_nonneg. Qed.

Lemma cents_nonneg (m : positive) (e : Z) : 0 <= cents m e.
Proof.
  unfold cents. pose proof (shortest_nonneg m e) as Hs.
  destruct (shortest m e) as [s k]. cbn [fst] in Hs.
  change 0 with (Qfloor 0). apply Qfloor_resp_le.
  pose proof (pow10_pos (k + 2)) as Hp.
  assert (0 <= inject_Z s)%Q by (now rewrite <- (Zle_Qle 0)).
  assert (0 <= inject_Z s * pow10 (k + 2))%Q
    by (apply Qmult_le_0_compat; lra).
  lra.
Qed.


(** *** The search finds the shortest decimal, and the nearest of them *)

Lemma exact_decimal_value (m : positive) (e : Z) :
  (inject_Z (fst (exact_decimal m e)) * pow10 (snd (exact_decimal m e))
   == binary_value m e)%Q
  /\ snd (exact_decimal m e) = Z.min e 0.
Proof.
  unfold exact_decimal, binary_value.
  destruct (Z.leb_spec 0 e) as [He|He]; cbn [fst snd]; (split; [|lia]).
  - rewrite inject_Z_mult, <- pow2_of_Z by exact He.
    change (pow10 0) with 1%Q. ring.
  - rewrite inject_Z_mult.
    assert (inject_Z (5 ^ (- e)) * pow10 e == 2 ^ e)%Q as H5; [|rewrite <- H5; ring].
    remember (- e) as n eqn:Hn. assert (e = - n) as -> by lia.
    unfold pow10. rewrite !Qpower_opp.
    rewrite (Zpower_Qpower 5) by lia.
    change 10%Q with (inject_Z 5 * 2)%Q.
    rewrite Qmult_power.
    assert (~ inject_Z 5 ^ n == 0)%Q as Ha by (apply Qpower_not_0; discriminate).
    assert (~ 2 ^ n == 0)%Q as Hb by (apply Qpower_not_0; discriminate).
    revert Ha Hb. generalize (inject_Z 5 ^ n)%Q (2 ^ n)%Q. intros a b Ha Hb.
    field. split; assumption.
Qed.

Lemma at_level_exact (m : positive) (e : Z) :
  at_level m e (Z.min e 0) <> None.
Proof.
  destruct (exact_decimal_value m e) as [Hval Hk].
  apply (at_level_complete m e _ (fst (exact_decimal m e))).
  apply rounds_to_iff. rewrite <- Hk.
  unfold in_interval. pose proof (in_interval_value m e) as Hv.
  unfold in_interval in Hv.
  destruct (Z.even (Zpos m)); rewrite Hval; exact Hv.
Qed.

Lemma shortest_from_spec (m : positive) (e k0 : Z) (fuel : nat) :
  forall k,
    at_level m e k0 <> None -> k0 <= k -> k - k0 <= Z.of_nat fuel ->
    exists s k',
      shortest_from fuel m e k = (s, k')
      /\ k0 <= k' <= k
      /\ at_level m e k' = Some s
      /\ forall k'', k' < k'' <= k -> at_level m e k'' = None.
Proof.
  induction fuel as [|fuel IH]; intros k H0 Hk Hfuel.
  - assert (k = k0) as -> by lia. cbn [shortest_from].
    destruct (at_level m e k0) as [s|] eqn:Hat; [|congruence].
    exists s, k0. repeat split; (reflexivity || lia || assumption).
  - cbn [shortest_from].
    destruct (at_level m e k) as [s|] eqn:Hat.
    + exists s, k. repeat split; (reflexivity || lia || assumption).
    + assert (k <> k0) by (intros ->; congruence).
      destruct (IH (k - 1) H0) as (s & k' & Heq & Hr & Hs & Hnone); [lia | lia |].
      exists s, k'. repeat split; try (assumption || lia).
      intros k'' Hk''. destruct (Z.eq_dec k'' k) as [->|Hne];
        [exact Hat | apply Hnone; lia].
Qed.

Lemma lower_bound_pos (m : positive) (e : Z) : (0 < lower_bound m e)%Q.
Proof.
  rewrite lower_bound_eq. unfold binary_value.
  pose proof (pow2_pos_Q e) as Hu.
  assert (1 <= inject_Z (Zpos m))%Q as Hm
      by (change 1%Q with (inject_Z 1); rewrite <- Zle_Qle; lia).
  assert (2 ^ e <= inject_Z (Zpos m) * 2 ^ e)%Q as Hv.
  { rewrite <- (Qmult_1_l (2 ^ e)) at 1.
    apply Qmult_le_compat_r; [exact Hm | lra]. }
  destruct (lower_is_closer m e); lra.
Qed.

Lemma upper_bound_below_pow2 (m : positive) (e : Z) :
  (upper_bound m e < 2 ^ (Z.log2 (Zpos m) + e + 2))%Q.
Proof.
  rewrite upper_bound_eq. unfold binary_value.
  pose proof (pow2_pos_Q e) as Hu.
  set (l := Z.log2 (Zpos m)).
  assert (0 <= l) as Hl by apply Z.log2_nonneg.
  assert (Zpos m < 2 ^ (l + 1)) as Hm.
  { replace (l + 1) with (Z.succ l) by lia. apply Z.log2_spec. lia. }
  assert (0 <= l + 1) as Hl1 by lia.
  set (l1 := l + 1) in *.
  replace (l + e + 2) with (l1 + 1 + e) by lia.
  rewrite !Qpower_plus by discriminate.
  rewrite (pow2_of_Z l1) by lia.
  change (2 ^ 1)%Q with 2%Q.
  assert (inject_Z (Zpos m) < inject_Z (2 ^ l1))%Q as HmQ
      by (now rewrite <- Zlt_Qlt).
  assert (inject_Z (Zpos m) * 2 ^ e < inject_Z (2 ^ l1) * 2 ^ e)%Q
    by (apply Qmult_lt_compat_r; assumption).
  assert (1 * 2 ^ e <= inject_Z (2 ^ l1) * 2 ^ e)%Q.
  { apply Qmult_le_compat_r; [|lra].
    apply Qle_trans with (inject_Z (Zpos m)); [|lra].
    change 1%Q with (inject_Z 1). rewrite <- Zle_Qle. lia. }
  lra.
Qed.

Lemma pow2_below_pow10 (L k : Z) : 0 <= k -> L <= 3 * k -> (2 ^ L <= pow10 k)%Q.
Proof.
  intros Hk HL.
  apply Qle_trans with (2 ^ (3 * k))%Q.
  - apply Qpower_le_compat_l; [exact HL | discriminate].
  - rewrite pow2_of_Z, pow10_of_Z by lia. rewrite <- Zle_Qle.
    rewrite Z.pow_mul_r by lia. apply Z.pow_le_mono_l. cbn. lia.
Qed.

(** No decimal above the top level rounds to the double. *)
Lemma above_top_level (m : positive) (e s k : Z) :
  top_level m e < k -> rounds_to m e (inject_Z s * pow10 k) = false.
Proof.
  intros Hk. destruct (rounds_to m e (inject_Z s * pow10 k)) eqn:Hr;
    [exfalso | reflexivity].
  apply rounds_to_iff in Hr.
  pose proof (lower_bound_pos m e) as Hlo.
  pose proof (upper_bound_below_pow2 m e) as Hhi.
  pose proof (pow10_pos k) as Hp.
  set (L := Z.log2 (Zpos m) + e + 2) in *.
  assert (2 ^ L <= pow10 k)%Q as H2.
  { unfold top_level in Hk. fold L in Hk.
    apply pow2_below_pow10; [lia|].
    pose proof (Z.mul_succ_div_gt L 3 ltac:(lia)). lia. }
  assert (lower_bound m e <= inject_Z s * pow10 k <= upper_bound m e)%Q as Hin
      by (unfold in_interval in Hr; destruct (Z.even (Zpos m)); lra).
  destruct (Z_le_gt_dec s 0) as [Hs|Hs].
  - assert (inject_Z s <= 0)%Q as HsQ
        by (change 0%Q with (inject_Z 0); rewrite <- Zle_Qle; exact Hs).
    assert (inject_Z s * pow10 k <= 0 * pow10 k)%Q
      by (apply Qmult_le_compat_r; lra).
    lra.
  - assert (1 <= inject_Z s)%Q as HsQ
        by (change 1%Q with (inject_Z 1); rewrite <- Zle_Qle; lia).
    assert (1 * pow10 k <= inject_Z s * pow10 k)%Q
      by (apply Qmult_le_compat_r; lra).
    lra.
Qed.

(** Of the multiples of [10^k] that round to the double, the one found is
    nearest to it. *)
Lemma at_level_nearest (m : positive) (e k s s' : Z) :
  at_level m e k = Some s ->
  rounds_to m e (inject_Z s' * pow10 k) = true ->
  (Qabs (inject_Z s * pow10 k - binary_value m e)
   <= Qabs (inject_Z s' * pow10 k - binary_value m e))%Q.
Proof.
  intros Hat Hs'. apply rounds_to_iff in Hs'.
  pose proof (floor_brackets (binary_value m e) k) as [Hlo Hhi].
  pose proof (in_interval_value m e) as Hv.
  pose proof (pow10_pos k) as Hp.
  unfold at_level in Hat.
  set (v := binary_value m e) in *.
  set (s1 := Qfloor (v / pow10 k)) in *.
  set (d1 := (inject_Z s1 * pow10 k)%Q) in *.
  set (d2 := (inject_Z (s1 + 1) * pow10 k)%Q) in *.
  pose proof (Qle_Qabs (inject_Z s' * pow10 k - v)) as Habs1.
  pose proof (Qle_Qabs (- (inject_Z s' * pow10 k - v))) as Habs2.
  rewrite Qabs_opp in Habs2.
  (* where the other decimal lies *)
  assert ((inject_Z s' * pow10 k <= d1)%Q \/ (d2 <= inject_Z s' * pow10 k)%Q)
    as Hside.
  { destruct (Z_le_gt_dec s' s1) as [H|H]; [left | right]; unfold d1, d2;
      (apply Qmult_le_compat_r; [rewrite <- Zle_Qle; lia | lra]). }
  assert (rounds_to m e d1 = false -> (d2 <= inject_Z s' * pow10 k)%Q) as Hno1.
  { intros Hf. destruct Hside as [H|H]; [|exact H]. exfalso.
    assert (in_interval m e d1) as Hin
        by (apply (in_interval_between m e _ _ _ Hs' Hv); lra).
    apply rounds_to_iff in Hin. congruence. }
  assert (rounds_to m e d2 = false -> (inject_Z s' * pow10 k <= d1)%Q) as Hno2.
  { intros Hf. destruct Hside as [H|H]; [exact H|]. exfalso.
    assert (in_interval m e d2) as Hin
        by (apply (in_interval_between m e _ _ _ Hv Hs'); lra).
    apply rounds_to_iff in Hin. congruence. }
  apply Qabs_Qle_condition.
  destruct (rounds_to m e d1) eqn:H1; destruct (rounds_to m e d2) eqn:H2;
    try discriminate.
  - destruct (Qlt_bool (v - d1) (d2 - v)) eqn:Hc1.
    + apply Qlt_bool_iff in Hc1. injection Hat as <-. fold d1.
      destruct Hside; lra.
    + destruct (Qlt_bool (d2 - v) (v - d1)) eqn:Hc2.
      * apply Qlt_bool_iff in Hc2. injection Hat as <-. fold d2.
        destruct Hside; lra.
      * assert (~ (v - d1 < d2 - v)%Q) as Hn1
          by (intros Hlt; apply Qlt_bool_iff in Hlt; congruence).
        assert (~ (d2 - v < v - d1)%Q) as Hn2
          by (intros Hlt; apply Qlt_bool_iff in Hlt; congruence).
        destruct (Z.even s1); injection Hat as <-; [fold d1 | fold d2];
          destruct Hside; lra.
  - injection Hat as <-. fold d1. specialize (Hno2 eq_refl). lra.
  - injection Hat as <-. fold d2. specialize (Hno1 eq_refl). lra.
Qed.

(** The decimal the formatter starts from: it rounds to the double, no
    decimal with fewer digits (a higher last place) does, and no decimal
    with the same last place that does is nearer to the double. *)
Lemma shortest_spec (m : positive) (e : Z) :
  exists s k,
    shortest m e = (s, k)
    /\ rounds_to m e (inject_Z s * pow10 k) = true
    /\ (forall s' k',
          k < k' -> rounds_to m e (inject_Z s' * pow10 k') = false)
    /\ (forall s',
          rounds_to m e (inject_Z s' * pow10 k) = true ->
          (Qabs (inject_Z s * pow10 k - binary_value m e)
           <= Qabs (inject_Z s' * pow10 k - binary_value m e))%Q).
Proof.
  assert (0 <= top_level m e) as Htop by (unfold top_level; lia).
  destruct (shortest_from_spec m e (Z.min e 0)
              (Z.to_nat (top_level m e - Z.min e 0)) (top_level m e)
              (at_level_exact m e))
    as (s & k & Heq & Hk & Hat & Hnone); [lia | lia |].
  exists s, k. split; [exact Heq|].
  split; [apply (at_level_sound m e k s Hat)|]. split.
  - intros s' k' Hk'.
    destruct (Z_le_gt_dec k' (top_level m e)) as [Hle|Hgt].
    + destruct (rounds_to m e (inject_Z s' * pow10 k')) eqn:Hr; [|reflexivity].
      apply at_level_complete in Hr. rewrite Hnone in Hr by lia. congruence.
    + apply above_top_level. lia.
  - intros s'. apply at_level_nearest. exact Hat.
Qed.

End Shortest.

(** ** The shape of a formatted amount *)

Section Currency.

Import NumberFormat.

Lemma digit_cases (d : Z) :
  0 <= d <= 9 ->
  d = 0 \/ d = 1 \/ d = 2 \/ d = 3 \/ d = 4 \/ d = 5 \/ d = 6 \/ d = 7
  \/ d = 8 \/ d = 9.
Proof. lia. Qed.

Ltac each_digit H :=
  destruct (digit_cases _ H) as [-> | [-> | [-> | [-> | [-> | [-> | [-> | [-> | [-> | ->]]]]]]]]].

Lemma is_digit_digit (d : Z) : 0 <= d <= 9 -> is_digit (digit d) = true.
Proof. intros H. each_digit H; reflexivity. Qed.

Lemma digit_nonzero (d : Z) :
  1 <= d <= 9 -> Ascii.eqb (digit d) "0" = false.
Proof.
  intros H. assert (0 <= d <= 9) as H' by lia.
  each_digit H'; try reflexivity; lia.
Qed.

Lemma digit_not_separator (d : Z) :
  0 <= d <= 9 ->
  Ascii.eqb (digit d) "." = false /\ Ascii.eqb (digit d) "," = false.
Proof. intros H. each_digit H; split; reflexivity. Qed.

Lemma mod10_digit (n : Z) : 0 <= n mod 10 <= 9.
Proof. pose proof (Z.mod_pos_bound n 10). lia. Qed.

Lemma usd_tail_group (k : Z) (tail : string) :
  usd_tail tail = true ->
  usd_tail ("," ++ fixed 3 k ++ tail) = true.
Proof.
  intros Ht. cbn [append fixed usd_tail].
  change (Ascii.eqb "," ".") with false.
  change (Ascii.eqb "," ",") with true. cbv iota.
  rewrite !is_digit_digit by apply mod10_digit.
  exact Ht.
Qed.

Lemma usd_tail_fraction (c : Z) : usd_tail ("." ++ fixed 2 c) = true.
Proof.
  cbn [append fixed usd_tail].
  change (Ascii.eqb "." ".") with true. cbv iota.
  now rewrite !is_digit_digit by apply mod10_digit.
Qed.

Lemma append_assoc (a b c : string) : (a ++ b) ++ c = a ++ (b ++ c).
Proof. induction a as [|x a IH]; cbn; [reflexivity | now rewrite IH]. Qed.

Lemma grouped_unfold (n : Z) :
  0 <= n ->
  grouped n =
  if n <? 1000 then decimal n
  else grouped (n / 1000) ++ "," ++ fixed 3 (n mod 1000).
Proof.
  intros Hn. unfold grouped at 1. cbn [grouped_fuel].
  destruct (n <? 1000) eqn:Hlt; [reflexivity|].
  apply Z.ltb_ge in Hlt. f_equal.
  assert (forall f g m,
             0 <= m < 2 ^ Z.of_nat (S f) -> 0 <= m < 2 ^ Z.of_nat (S g) ->
             grouped_fuel (S f) m = grouped_fuel (S g) m) as Hindep.
  { induction f as [|f IH]; intros g m Hf Hg.
    - change (2 ^ Z.of_nat 1) with 2 in Hf. cbn [grouped_fuel].
      now replace (m <? 1000) with true by (symmetry; apply Z.ltb_lt; lia).
    - cbn [grouped_fuel]. destruct (m <? 1000) eqn:Hm; [reflexivity|].
      apply Z.ltb_ge in Hm. destruct g as [|g].
      + change (2 ^ Z.of_nat 1) with 2 in Hg. lia.
      + f_equal. apply IH; apply div_below; lia. }
  pose proof (below_fuel n Hn) as Hb.
  destruct (Z.to_nat (Z.log2 n)) as [|k] eqn:Hk.
  - change (2 ^ Z.of_nat 1) with 2 in Hb. lia.
  - unfold grouped. apply Hindep.
    + apply div_below; lia.
    + apply below_fuel. apply Z.div_pos; lia.
Qed.

(** One to three digits, the first of them not a zero. *)
Lemma usd_magnitude_head (n : Z) (tail : string) :
  1 <= n < 1000 -> usd_tail tail = true ->
  usd_magnitude (decimal n ++ tail) = true.
Proof.
  intros Hn Ht.
  destruct (Z_lt_dec n 10) as [H1|H1]; [|destruct (Z_lt_dec n 100) as [H2|H2]].
  - rewrite decimal_1 by lia. cbn [append usd_magnitude].
    rewrite is_digit_digit, digit_nonzero, Ht by lia. reflexivity.
  - rewrite decimal_2 by lia. cbn [append usd_magnitude].
    assert (1 <= n / 10 <= 9) as Hq
        by (split; [apply Z.div_le_lower_bound | apply Z.lt_succ_r, Z.div_lt_upper_bound]; lia).
    rewrite !is_digit_digit, digit_nonzero, Ht by (apply mod10_digit || lia).
    cbn. now rewrite orb_true_r.
  - rewrite decimal_3 by lia. cbn [append usd_magnitude].
    assert (1 <= n / 10 / 10 <= 9) as Hq.
    { rewrite Z.div_div by lia.
      split; [apply Z.div_le_lower_bound | apply Z.lt_succ_r, Z.div_lt_upper_bound]; lia. }
    rewrite !is_digit_digit, digit_nonzero, Ht by (apply mod10_digit || lia).
    cbn. now rewrite !orb_true_r.
Qed.

Lemma usd_magnitude_grouped (n : Z) :
  1 <= n ->
  forall tail, usd_tail tail = true -> usd_magnitude (grouped n ++ tail) = true.
Proof.
  intros Hn. assert (0 <= n) as H0 by lia. revert Hn.
  pattern n. apply Zlt_0_ind; [|exact H0]. clear n H0.
  intros n IH _ Hn tail Ht.
  rewrite grouped_unfold by lia.
  destruct (n <? 1000) eqn:Hlt.
  - apply Z.ltb_lt in Hlt. apply usd_magnitude_head; [lia | exact Ht].
  - apply Z.ltb_ge in Hlt. rewrite append_assoc.
    assert (1 <= n / 1000 < n) as Hq.
    { split; [apply Z.div_le_lower_bound | apply Z.div_lt_upper_bound]; lia. }
    apply IH; [lia | lia |].
    rewrite append_assoc. apply usd_tail_group. exact Ht.
Qed.

Lemma usd_magnitude_magnitude (c : Z) :
  0 <= c -> usd_magnitude (magnitude c) = true.
Proof.
  intros Hc. unfold magnitude.
  assert (0 <= c / 100) as Hq by (apply Z.div_pos; lia).
  destruct (Z.eq_dec (c / 100) 0) as [Hz|Hnz].
  - rewrite Hz. change (grouped 0) with "0".
    cbn [append usd_magnitude fixed usd_tail prefix].
    change (Ascii.eqb "0" "0") with true.
    change (Ascii.eqb "." ".") with true. 
    change (is_digit "0") with true. cbv iota.
    rewrite !is_digit_digit by apply mod10_digit. 
    reflexivity.
  - apply usd_magnitude_grouped; [lia | apply usd_tail_fraction].
Qed.

Lemma format_finite_is_usd (x : number) :
  is_finite x = true -> is_usd (format x) = true.
Proof.
  destruct x as [s|s| |s m e]; cbn [is_finite]; try discriminate; intros _.
  - destruct s; cbn [format sign_prefix append is_usd];
    change (Ascii.eqb "-" "$") with false; change (Ascii.eqb "-" "-") with true; change (Ascii.eqb "$" "$") with true;
    cbv iota; cbn [andb];
      apply usd_magnitude_magnitude; lia.
  - destruct s; cbn [format sign_prefix append is_usd];
    change (Ascii.eqb "-" "$") with false; change (Ascii.eqb "-" "-") with true; change (Ascii.eqb "$" "$") with true;
    cbv iota; cbn [andb];
      apply usd_magnitude_magnitude, cents_nonneg.
Qed.

End Currency.

(** ** The civil calendar *)

Section Calendar.

Import Date.

Lemma DaysInYear_cases (y : Z) : DaysInYear y = 365 \/ DaysInYear y = 366.
Proof.
  unfold DaysInYear.
  destruct (y mod 4 =? 0), (y mod 100 =? 0), (y mod 400 =? 0); cbn; auto.
Qed.

Lemma DayFromYear_succ (y : Z) :
  DayFromYear (y + 1) = DayFromYear y + DaysInYear y.
Proof.
  unfold DayFromYear, DaysInYear.
  destruct (y mod 4 =? 0) eqn:H4; cbn [negb];
    [apply Z.eqb_eq in H4 | apply Z.eqb_neq in H4];
    (destruct (y mod 100 =? 0) eqn:H100; cbn [negb];
     [apply Z.eqb_eq in H100 | apply Z.eqb_neq in H100]);
    (destruct (y mod 400 =? 0) eqn:H400; cbn [negb];
     [apply Z.eqb_eq in H400 | apply Z.eqb_neq in H400]);
    Z.div_mod_to_equations; lia.
Qed.

Lemma YearFromDay_spec (d : Z) :
  DayFromYear (YearFromDay d) <= d < DayFromYear (YearFromDay d + 1).
Proof.
  unfold YearFromDay.
  set (y := 1970 + 400 * d / 146097).
  assert (146097 * (y - 1970) <= 400 * d < 146097 * (y - 1970) + 146097) as Hy.
  { subst y. Z.div_mod_to_equations. lia. }
  clearbody y.
  destruct (d <? DayFromYear y) eqn:H1.
  - apply Z.ltb_lt in H1. replace (y - 1 + 1) with y by lia.
    split; [|exact H1]. unfold DayFromYear in *. Z.div_mod_to_equations. lia.
  - apply Z.ltb_ge in H1.
    destruct (DayFromYear (y + 1) <=? d) eqn:H2.
    + apply Z.leb_le in H2. split; [exact H2|].
      unfold DayFromYear in *. Z.div_mod_to_equations. lia.
    + apply Z.leb_gt in H2. lia.
Qed.

Lemma DayFromYear_mono (a b : Z) : a <= b -> DayFromYear a <= DayFromYear b.
Proof.
  intros H. unfold DayFromYear. Z.div_mod_to_equations. lia.
Qed.

(** The year of a day is the only year whose days include it. *)
Lemma YearFromDay_unique (d y : Z) :
  DayFromYear y <= d < DayFromYear (y + 1) -> YearFromDay d = y.
Proof.
  intros [Hlo Hhi]. pose proof (YearFromDay_spec d) as [Slo Shi].
  destruct (Z_lt_dec (YearFromDay d) y) as [Hlt|Hge].
  - pose proof (DayFromYear_mono (YearFromDay d + 1) y). lia.
  - destruct (Z_lt_dec y (YearFromDay d)) as [Hgt|Hle]; [|lia].
    pose proof (DayFromYear_mono (y + 1) (YearFromDay d)). lia.
Qed.

Lemma InLeapYear_cases (t : Z) :
  (InLeapYear t = 0 /\ DaysInYear (YearFromTime t) = 365)
  \/ (InLeapYear t = 1 /\ DaysInYear (YearFromTime t) = 366).
Proof.
  unfold InLeapYear.
  destruct (DaysInYear_cases (YearFromTime t)) as [-> | ->]; cbn; auto.
Qed.

Lemma DayWithinYear_bounds (t : Z) :
  0 <= DayWithinYear t < DaysInYear (YearFromTime t).
Proof.
  unfold DayWithinYear, YearFromTime.
  pose proof (YearFromDay_spec (Day t)) as H.
  rewrite DayFromYear_succ in H. lia.
Qed.

Lemma DateFromTime_bounds (t : Z) : 1 <= DateFromTime t <= 31.
Proof.
  unfold DateFromTime, MonthFromTime.
  pose proof (DayWithinYear_bounds t) as Hd.
  destruct (InLeapYear_cases t) as [[-> Hy] | [-> Hy]]; rewrite Hy in Hd;
    set (d := DayWithinYear t) in *; clearbody d;
    unfold MonthFromDayWithinYear;
    repeat match goal with
           | |- context [?a <? ?b] =>
               let H := fresh in
               destruct (Z.ltb_spec a b) as [H|H];
               cbn [DaysBeforeMonth]; try lia
           end.
Qed.

Lemma Day_shift (d off : Z) :
  0 <= off < msPerDay -> Day (d * msPerDay + off) = d.
Proof.
  intros H. unfold Day, msPerDay in *. Z.div_mod_to_equations. lia.
Qed.

(** A legal civil date is the date of its own day number. *)
Lemma civil_of_MakeDay (y m d : Z) (t : Z) :
  0 <= m <= 11 -> 1 <= d <= DaysInMonth y m ->
  Day t = MakeDay y m d ->
  YearFromTime t = y /\ MonthFromTime t = m /\ DateFromTime t = d.
Proof.
  intros Hm Hd Ht.
  assert (DayFromYear y <= Day t < DayFromYear (y + 1) /\
          MonthFromDayWithinYear (Day t - DayFromYear y)
            (if DaysInYear y =? 366 then 1 else 0) = m /\
          Day t - DayFromYear y
          - DaysBeforeMonth m (if DaysInYear y =? 366 then 1 else 0) + 1 = d)
    as (Hrange & Hmonth & Hdate).
  { rewrite Ht, DayFromYear_succ. unfold MakeDay, DaysInMonth in *.
    assert (m = 0 \/ m = 1 \/ m = 2 \/ m = 3 \/ m = 4 \/ m = 5 \/ m = 6
            \/ m = 7 \/ m = 8 \/ m = 9 \/ m = 10 \/ m = 11) as Hcases by lia.
    destruct (DaysInYear_cases y) as [Hy | Hy]; rewrite Hy in *;
      cbn [Z.eqb Pos.eqb] in *;
      decompose [or] Hcases; subst m;
      cbn [DaysBeforeMonth] in *; unfold MonthFromDayWithinYear;
      repeat split; try lia;
      repeat match goal with
             | |- context [?a <? ?b] =>
                 let H := fresh in
                 destruct (Z.ltb_spec a b) as [H|H]; try lia
             end. }
  assert (YearFromTime t = y) as Hyear
      by (unfold YearFromTime; now apply YearFromDay_unique).
  unfold MonthFromTime, DateFromTime, MonthFromTime, DayWithinYear, InLeapYear.
  rewrite Hyear. rewrite Hmonth. auto.
Qed.


(** *** Parsing and formatting *)

Lemma digit_value_range (c : ascii) (v : Z) :
  digit_value c = Some v -> 0 <= v <= 9.
Proof.
  unfold digit_value, is_digit.
  destruct (48 <=? nat_of_ascii c)%nat eqn:Hlo; [|discriminate].
  destruct (nat_of_ascii c <=? 57)%nat eqn:Hhi; [|discriminate].
  apply Nat.leb_le in Hlo, Hhi. cbn [andb].
  intros [= <-]. lia.
Qed.

Lemma two_digits_range (a b : ascii) (v : Z) :
  two_digits a b = Some v -> 0 <= v <= 99.
Proof.
  unfold two_digits.
  destruct (digit_value a) as [x|] eqn:Ha; [|discriminate].
  destruct (digit_value b) as [y|] eqn:Hb; [|discriminate].
  apply digit_value_range in Ha. apply digit_value_range in Hb.
  intros H. assert (v = 10 * x + y) by congruence. lia.
Qed.

Lemma four_digits_range (a b c d : ascii) (v : Z) :
  four_digits a b c d = Some v -> 0 <= v <= 9999.
Proof.
  unfold four_digits.
  destruct (two_digits a b) as [x|] eqn:Ha; [|discriminate].
  destruct (two_digits c d) as [y|] eqn:Hb; [|discriminate].
  apply two_digits_range in Ha. apply two_digits_range in Hb.
  intros H. assert (v = 100 * x + y) by congruence. lia.
Qed.

Lemma date_only_fields_year (s : string) (y m d : Z) :
  date_only_fields s = Some (y, m, d) -> 0 <= y <= 9999.
Proof.
  unfold date_only_fields.
  destruct s as [|y1 [|y2 [|y3 [|y4 rest]]]]; try discriminate.
  destruct (four_digits y1 y2 y3 y4) as [v|] eqn:Hy; [|discriminate].
  apply four_digits_range in Hy.
  destruct rest as [|s1 [|m1 [|m2 rest']]]; try discriminate.
  - intros [= <- _ _]. exact Hy.
  - destruct (dash s1); [|discriminate].
    destruct (two_digits m1 m2) as [mv|]; [|discriminate].
    destruct rest' as [|s2 [|d1 [|d2 [|? ?]]]]; try discriminate.
    + intros [= <- _ _]. exact Hy.
    + destruct (dash s2); [|discriminate].
      destruct (two_digits d1 d2) as [dv|]; [|discriminate].
      intros [= <- _ _]. exact Hy.
Qed.

Lemma MakeDay_range (y m d : Z) :
  0 <= y <= 9999 -> 0 <= m <= 11 -> 1 <= d <= 31 ->
  -719528 <= MakeDay y m d <= 2932897.
Proof.
  intros Hy Hm Hd. unfold MakeDay.
  assert (0 <= DaysBeforeMonth m (if DaysInYear y =? 366 then 1 else 0) <= 335)
    as Hb.
  { assert (m = 0 \/ m = 1 \/ m = 2 \/ m = 3 \/ m = 4 \/ m = 5 \/ m = 6
            \/ m = 7 \/ m = 8 \/ m = 9 \/ m = 10 \/ m = 11) as Hcases by lia.
    destruct (DaysInYear y =? 366); decompose [or] Hcases; subst m;
      cbn [DaysBeforeMonth]; lia. }
  unfold DayFromYear. Z.div_mod_to_equations. lia.
Qed.

Lemma DaysInMonth_le_31 (y m : Z) : DaysInMonth y m <= 31.
Proof.
  unfold DaysInMonth.
  repeat match goal with
         | |- context [match ?x with _ => _ end] => destruct x
         end; lia.
Qed.

(** A legal date-only string parses to midnight UTC of its day. *)
Lemma parse_date_only (env : Environment) (s : string) (y m d : Z) :
  date_only_fields s = Some (y, m, d) ->
  1 <= m <= 12 -> 1 <= d <= DaysInMonth y (m - 1) ->
  parse env s = Some (MakeDay y (m - 1) d * msPerDay).
Proof.
  intros Hf Hm Hd. unfold parse, parseDateOnly. rewrite Hf.
  replace ((1 <=? m) && (m <=? 12) && (1 <=? d) && (d <=? DaysInMonth y (m - 1)))
    with true.
  2:{ symmetry. repeat (apply andb_true_intro; split); apply Z.leb_le; lia. }
  unfold TimeClip.
  pose proof (date_only_fields_year _ _ _ _ Hf) as Hy.
  pose proof (DaysInMonth_le_31 y (m - 1)) as H31.
  pose proof (MakeDay_range y (m - 1) d Hy) as Hr.
  replace (Z.abs (MakeDay y (m - 1) d * msPerDay) <=? 8640000000000000)
    with true; [reflexivity|].
  symmetry. apply Z.leb_le. unfold msPerDay. lia.
Qed.

Lemma toLocaleDateString_invalid (env : Environment) (s : string) :
  parse env s = None ->
  toLocaleDateString env (construct env s) = Normal "Invalid Date".
Proof.
  intros H. unfold toLocaleDateString, construct. cbn [DateValue].
  now rewrite H.
Qed.

Lemma toLocaleDateString_valid (env : Environment) (s : string) (t : Z) :
  parse env s = Some t ->
  toLocaleDateString env (construct env s) =
  Normal (month_short (MonthFromTime (LocalTime env t)) ++ " "
          ++ decimal (DateFromTime (LocalTime env t)) ++ ", "
          ++ decimal (year_of_era (YearFromTime (LocalTime env t)))).
Proof.
  intros H. unfold toLocaleDateString, construct. cbn [DateValue].
  now rewrite H.
Qed.

(** Formatting a date never throws. *)
Lemma toLocaleDateString_returns (env : Environment) (s : string) :
  exists text, toLocaleDateString env (construct env s) = Normal text.
Proof.
  destruct (parse env s) as [t|] eqn:H.
  - eexists. exact (toLocaleDateString_valid env s t H).
  - eexists. exact (toLocaleDateString_invalid env s H).
Qed.

(** In a zone at or east of UTC (by less than a day) a legal date-only
    string shows its own day. *)
Lemma date_only_text (env : Environment) (s : string) (y m d : Z) :
  date_only_fields s = Some (y, m, d) ->
  1 <= y -> 1 <= m <= 12 -> 1 <= d <= DaysInMonth y (m - 1) ->
  0 <= LocalTZA env (MakeDay y (m - 1) d * msPerDay) < msPerDay ->
  toLocaleDateString env (construct env s) =
  Normal (month_short (m - 1) ++ " " ++ decimal d ++ ", " ++ decimal y).
Proof.
  intros Hf Hy Hm Hd Hz.
  rewrite (toLocaleDateString_valid env s _ (parse_date_only env s y m d Hf Hm Hd)).
  assert (Day (LocalTime env (MakeDay y (m - 1) d * msPerDay))
          = MakeDay y (m - 1) d) as HD
      by (unfold LocalTime; now apply Day_shift).
  destruct (civil_of_MakeDay y (m - 1) d _ ltac:(lia) Hd HD) as (-> & -> & ->).
  unfold year_of_era.
  now replace (1 <=? y) with true by (symmetry; apply Z.leb_le; lia).
Qed.

Lemma month_short_shape (m : Z) :
  exists a b c,
    month_short m = String a (String b (String c ""))
    /\ is_month_short (String a (String b (String c ""))) = true.
Proof.
  unfold month_short.
  repeat match goal with
         | |- context [match ?x with _ => _ end] => destruct x
         end; do 3 eexists; split; reflexivity.
Qed.

Lemma is_year4_decimal (y : Z) :
  1000 <= y <= 9999 -> is_year4 (decimal y) = true.
Proof.
  intros H. rewrite decimal_4 by lia. cbn [is_year4].
  now rewrite !is_digit_digit
    by (apply mod10_digit || (Z.div_mod_to_equations; lia)).
Qed.

Lemma short_date_shape (m d y : Z) :
  1 <= d <= 31 -> 1000 <= y <= 9999 ->
  is_short_date (month_short m ++ " " ++ decimal d ++ ", " ++ decimal y) = true.
Proof.
  intros Hd Hy.
  destruct (month_short_shape m) as (a & b & c & -> & Hm).
  cbn [append is_short_date]. rewrite Hm.
  change (Ascii.eqb " " " ") with true. cbn [andb].
  pose proof (is_year4_decimal y Hy) as H4.
  destruct (Z_lt_dec d 10) as [H1|H1].
  - rewrite decimal_1 by lia. cbn [append is_day_year].
    rewrite is_digit_digit, digit_nonzero by lia.
    change (Ascii.eqb "," ",") with true. change (Ascii.eqb " " " ") with true.
    cbn [andb negb]. exact H4.
  - rewrite decimal_2 by lia. cbn [append is_day_year].
    assert (1 <= d / 10 <= 9) as Hq
        by (split; [apply Z.div_le_lower_bound | apply Z.lt_succ_r, Z.div_lt_upper_bound]; lia).
    destruct (digit_not_separator (d mod 10) (mod10_digit d)) as [_ Hc].
    rewrite !is_digit_digit, digit_nonzero, Hc by (apply mod10_digit || lia).
    change (Ascii.eqb "," ",") with true. change (Ascii.eqb " " " ") with true.
    cbn [andb negb]. exact H4.
Qed.

(** A valid date whose local year has four digits shows as "Mon D, YYYY". *)
Lemma toLocaleDateString_shape (env : Environment) (s : string) (t : Z) :
  parse env s = Some t ->
  1000 <= YearFromTime (LocalTime env t) <= 9999 ->
  exists text,
    toLocaleDateString env (construct env s) = Normal text
    /\ is_short_date text = true.
Proof.
  intros Hp Hy. eexists. split; [exact (toLocaleDateString_valid env s t Hp)|].
  unfold year_of_era.
  replace (1 <=? YearFromTime (LocalTime env t)) with true
    by (symmetry; apply Z.leb_le; lia).
  apply short_date_shape; [apply DateFromTime_bounds | exact Hy].
Qed.

End Calendar.

(** ** The component *)

Section Card.

Import React Date.

Context {World : Type}.

(** Running a render: the formatted date is some text, whatever the date
    string was; the flags are then taken case by case. *)
Ltac run_card v env props :=
  destruct v;
  unfold ExpenseCard, Css.ExpenseCard, Tailwind.ExpenseCard, bind, ret, call;
  let text := fresh "text" in
  let Htext := fresh "Htext" in
  destruct (toLocaleDateString_returns env (date props)) as [text Htext];
  rewrite Htext; cbv beta iota zeta.

Ltac by_flags props :=
  destruct (showCategory props) as [[|]|];
  destruct (highlighted props) as [[|]|];
  cbn [default].

(** C1. When [onDelete] is supplied the card holds a delete button, and a
    click on it stops the propagation of the event and then calls
    [onDelete] once with the [id] of the props; no click handler of an
    enclosing element runs. *)
Theorem delete_click_stops_then_deletes
        (v : variant) (env : Environment) (props : ExpenseCardProps World)
        (w : World) (cb : number -> World -> World) :
  onDelete props = Some cb ->
  exists t btn,
    ExpenseCard v env props w = Normal (t, w)
    /\ find_type "button" t = Some btn
    /\ string_prop "aria-label" btn = Some "Delete expense"
    /\ forall (outer : list (Handler World)) (w' : World),
        click (has_type "button") t outer w' =
        Some {| stopped := true;
                world := cb (id props) w';
                journal := [PropagationStopped; CallbackInvoked (id props)] |}.
Proof.
  intros Hcb. run_card v env props; rewrite Hcb; by_flags props;
    do 2 eexists; (split; [reflexivity|]); repeat split; reflexivity.
Qed.

(** C4. A delete button is in the output exactly when [onDelete] is
    supplied. *)
Theorem delete_control_iff_onDelete
        (v : variant) (env : Environment) (props : ExpenseCardProps World)
        (w : World) :
  exists t,
    ExpenseCard v env props w = Normal (t, w)
    /\ (find_type "button" t <> None <-> onDelete props <> None).
Proof.
  run_card v env props; destruct (onDelete props) as [cb|]; by_flags props;
    eexists; (split; [reflexivity|]); cbn; split; congruence.
Qed.

(** C5. With [showCategory] false there is no badge, whatever the
    category; with [showCategory] left out (or true) the badge is there and
    its text is the category itself. *)
Theorem category_badge_follows_showCategory
        (v : variant) (env : Environment) (props : ExpenseCardProps World)
        (w : World) :
  exists t,
    ExpenseCard v env props w = Normal (t, w)
    /\ (showCategory props = Some false -> find_type "span" t = None)
    /\ (showCategory props <> Some false ->
        exists badge,
          find_type "span" t = Some badge
          /\ children_of badge = [Text (category_string (category props))]).
Proof.
  run_card v env props; destruct (onDelete props) as [cb|];
    destruct (showCategory props) as [[|]|];
    destruct (highlighted props) as [[|]|]; cbn [default];
    eexists; (split; [reflexivity|]); cbn;
    (split; [congruence|]); intros H; try congruence;
    eexists; split; reflexivity.
Qed.

(** A click on an element without a handler of its own does reach the
    enclosing handlers: only [stopPropagation] keeps them from running. *)
Lemma click_bubbles_from_amount
      (v : variant) (env : Environment) (props : ExpenseCardProps World)
      (w : World) (h : Handler World) :
  exists t,
    ExpenseCard v env props w = Normal (t, w)
    /\ forall w',
        click (has_type "p") t [h] w' =
        Some (snd (h {| stopped := false; world := w'; journal := [] |})).
Proof.
  run_card v env props; destruct (onDelete props) as [cb|]; by_flags props;
    eexists; (split; [reflexivity|]); intros w'; cbn;
    destruct (stopped _); reflexivity.
Qed.

(** The classes of an element that has a [className] first. *)
Lemma classList_className (type cls : string)
      (rest : list (string * PropValue World)) (cs : list (Node World)) :
  classList (Element type (("className", Str cls) :: rest) cs)
  = split_spaces cls "".
Proof. reflexivity. Qed.

Lemma css_classes_plain :
  split_spaces ("expense-card " ++ "") "" = ["expense-card"].
Proof. vm_compute. reflexivity. Qed.

Lemma css_classes_highlighted :
  split_spaces ("expense-card " ++ "expense-card--highlighted") ""
  = ["expense-card"; "expense-card--highlighted"].
Proof. vm_compute. reflexivity. Qed.

Lemma tailwind_classes_plain :
  split_spaces (Tailwind.article_classes ++ "border-blue-500") ""
  = ["relative"; "bg-white"; "rounded-lg"; "p-4"; "mb-3"; "shadow-md";
     "transition-all"; "duration-200"; "border"; "hover:shadow-lg";
     "border-blue-500"].
Proof. vm_compute. reflexivity. Qed.

Lemma tailwind_classes_highlighted :
  split_spaces (Tailwind.article_classes ++ "border-orange-500 bg-orange-50") ""
  = ["relative"; "bg-white"; "rounded-lg"; "p-4"; "mb-3"; "shadow-md";
     "transition-all"; "duration-200"; "border"; "hover:shadow-lg";
     "border-orange-500"; "bg-orange-50"].
Proof. vm_compute. reflexivity. Qed.

(** C6. The root carries the highlighted classes exactly when
    [highlighted] is true; when it is false or left out the root has the
    base classes only. *)
Theorem highlighted_selects_root_classes
        (env : Environment) (props : ExpenseCardProps World) (w : World) :
  exists t1 t2,
    ExpenseCard css env props w = Normal (t1, w)
    /\ ExpenseCard tailwind env props w = Normal (t2, w)
    /\ (has_class "expense-card--highlighted" t1 = true
        <-> highlighted props = Some true)
    /\ (highlighted props <> Some true -> classList t1 = ["expense-card"])
    /\ (has_class "border-orange-500" t2 = true
        <-> highlighted props = Some true)
    /\ (has_class "bg-orange-50" t2 = true
        <-> highlighted props = Some true)
    /\ (highlighted props <> Some true ->
        classList t2 =
        ["relative"; "bg-white"; "rounded-lg"; "p-4"; "mb-3"; "shadow-md";
         "transition-all"; "duration-200"; "border"; "hover:shadow-lg";
         "border-blue-500"]).
Proof.
  unfold ExpenseCard, Css.ExpenseCard, Tailwind.ExpenseCard, bind, ret, call.
  destruct (toLocaleDateString_returns env (date props)) as [text Htext].
  rewrite Htext. cbv beta iota zeta.
  destruct (highlighted props) as [[|]|]; cbn [default];
    do 2 eexists; (split; [reflexivity|]); (split; [reflexivity|]);
    unfold has_class; rewrite !classList_className;
    rewrite ?css_classes_plain, ?css_classes_highlighted,
      ?tailwind_classes_plain, ?tailwind_classes_highlighted;
    repeat split; intros; try reflexivity; try congruence;
    match goal with
    | H : existsb _ _ = true |- _ => vm_compute in H; discriminate H
    end.
Qed.

(** C7. A date string that does not parse is not rejected: the render
    returns a card, the card shows "Invalid Date", and the string is kept
    as the [dateTime] attribute. *)
Theorem unparseable_date_shows_Invalid_Date
        (v : variant) (env : Environment) (props : ExpenseCardProps World)
        (w : World) :
  parse env (date props) = None ->
  exists t tm,
    ExpenseCard v env props w = Normal (t, w)
    /\ find_type "time" t = Some tm
    /\ children_of tm = [Text "Invalid Date"]
    /\ string_prop "dateTime" tm = Some (date props).
Proof.
  intros Hnone. apply toLocaleDateString_invalid in Hnone.
  destruct v;
    unfold ExpenseCard, Css.ExpenseCard, Tailwind.ExpenseCard, bind, ret, call;
    rewrite Hnone; cbv beta iota zeta;
    destruct (onDelete props) as [cb|]; by_flags props;
    do 2 eexists; repeat split; reflexivity.
Qed.

(** C8. A render returns one tree; the tree is the same whatever the
    world the render runs in, and the world is returned as it was. *)
Theorem render_is_stateless_and_deterministic
        (v : variant) (env : Environment) (props : ExpenseCardProps World)
        (w1 w2 : World) :
  exists t,
    ExpenseCard v env props w1 = Normal (t, w1)
    /\ ExpenseCard v env props w2 = Normal (t, w2).
Proof.
  run_card v env props; eexists; split; reflexivity.
Qed.

(** C10. In the CSS variant the [time] element has the date string as it
    came for its [dateTime] attribute, and the header and the body each
    have the text "// UPDATED" among their children. *)
Theorem css_dateTime_and_UPDATED_text
        (env : Environment) (props : ExpenseCardProps World) (w : World) :
  exists t header body tm,
    ExpenseCard css env props w = Normal (t, w)
    /\ children_of t = [header; body]
    /\ string_prop "className" header = Some "expense-header"
    /\ string_prop "className" body = Some "expense-body"
    /\ has_type "div" header = true
    /\ has_type "div" body = true
    /\ In (Text "// UPDATED") (children_of header)
    /\ In (Text "// UPDATED") (children_of body)
    /\ find_type "time" t = Some tm
    /\ In tm (children_of header)
    /\ string_prop "dateTime" tm = Some (date props).
Proof.
  unfold ExpenseCard, Css.ExpenseCard, bind, ret, call.
  destruct (toLocaleDateString_returns env (date props)) as [text Htext].
  rewrite Htext. cbv beta iota zeta.
  destruct (onDelete props) as [cb|]; by_flags props;
    do 4 eexists; repeat split; try reflexivity; cbn; auto.
Qed.


(** C3 (amended). A finite amount shows as US dollars: an optional minus,
    the dollar sign, the integer digits in groups of three, a point and
    two digits; 1234.5 shows as "$1,234.50", 0 as "$0.00" and -5 as
    "-$5.00".  The digits are those of the shortest decimal that reads
    back as the amount, rounded to cents with ties away from zero; so an
    amount that is the double of a decimal of [j] fraction digits, where
    the doubles lie closer together than such decimals, shows that
    decimal rounded to cents. *)
Theorem finite_amount_shows_as_usd
        (v : variant) (env : Environment) (props : ExpenseCardProps World)
        (w : World) :
  is_finite (amount props) = true ->
  exists t p text,
    ExpenseCard v env props w = Normal (t, w)
    /\ find_type "p" t = Some p
    /\ children_of p = [Text text]
    /\ NumberFormat.is_usd text = true
    /\ (amount props = Sample.d1234_5 -> text = "$1,234.50")
    /\ (amount props = Sample.zero -> text = "$0.00")
    /\ (amount props = Sample.minus_5 -> text = "-$5.00")
    /\ (forall s m e n j,
          amount props = S754_finite s m e ->
          0 <= j -> e < 0 -> 10 ^ j < 2 ^ (- e) ->
          NumberFormat.rounds_to m e (NumberFormat.decimal_value n j) = true ->
          text = NumberFormat.sign_prefix s ++ "$"
                 ++ NumberFormat.magnitude (NumberFormat.half_up_cents n j))
    /\ (forall s m e,
          amount props = S754_finite s m e ->
          exists d k,
            NumberFormat.rounds_to m e (inject_Z d * NumberFormat.pow10 k)
            = true
            /\ (forall d' k',
                  k < k' ->
                  NumberFormat.rounds_to m e
                    (inject_Z d' * NumberFormat.pow10 k') = false)
            /\ (forall d',
                  NumberFormat.rounds_to m e
                    (inject_Z d' * NumberFormat.pow10 k) = true ->
                  (Qabs (inject_Z d * NumberFormat.pow10 k
                         - NumberFormat.binary_value m e)
                   <= Qabs (inject_Z d' * NumberFormat.pow10 k
                            - NumberFormat.binary_value m e))%Q)
            /\ text = NumberFormat.sign_prefix s ++ "$"
                      ++ NumberFormat.magnitude
                           (Qfloor (inject_Z d * NumberFormat.pow10 (k + 2)
                                    + (1 # 2))%Q)).
Proof.
  intros Hfin. pose proof (format_finite_is_usd _ Hfin) as Husd.
  assert (forall s m e n j,
             amount props = S754_finite s m e ->
             0 <= j -> e < 0 -> 10 ^ j < 2 ^ (- e) ->
             NumberFormat.rounds_to m e (NumberFormat.decimal_value n j) = true ->
             NumberFormat.format (amount props)
             = NumberFormat.sign_prefix s ++ "$"
               ++ NumberFormat.magnitude (NumberFormat.half_up_cents n j))
    as Hdec.
  { intros s m e n j -> Hj He Hlt Hn. cbn [NumberFormat.format].
    now rewrite (cents_of_decimal m e n j Hj He Hlt Hn). }
  assert (forall s m e,
             amount props = S754_finite s m e ->
             exists d k,
               NumberFormat.rounds_to m e (inject_Z d * NumberFormat.pow10 k)
               = true
               /\ (forall d' k',
                     k < k' ->
                     NumberFormat.rounds_to m e
                       (inject_Z d' * NumberFormat.pow10 k') = false)
               /\ (forall d',
                     NumberFormat.rounds_to m e
                       (inject_Z d' * NumberFormat.pow10 k) = true ->
                     (Qabs (inject_Z d * NumberFormat.pow10 k
                            - NumberFormat.binary_value m e)
                      <= Qabs (inject_Z d' * NumberFormat.pow10 k
                               - NumberFormat.binary_value m e))%Q)
               /\ NumberFormat.format (amount props)
                  = NumberFormat.sign_prefix s ++ "$"
                    ++ NumberFormat.magnitude
                         (Qfloor (inject_Z d * NumberFormat.pow10 (k + 2)
                                  + (1 # 2))%Q))
    as Hshort.
  { intros s m e ->.
    destruct (shortest_spec m e) as (d & k & Heq & Hin & Hmin & Hnear).
    exists d, k. repeat split; try assumption.
    cbn [NumberFormat.format]. unfold NumberFormat.cents. now rewrite Heq. }
  run_card v env props; destruct (onDelete props) as [cb|]; by_flags props;
    do 3 eexists; (split; [reflexivity|]); (split; [reflexivity|]);
    (split; [reflexivity|]); (split; [exact Husd|]);
    (split; [intros ->; vm_compute; reflexivity|]);
    (split; [intros ->; vm_compute; reflexivity|]);
    (split; [intros ->; vm_compute; reflexivity|]);
    (split; [exact Hdec | exact Hshort]).
Qed.

(** C2 (amended). A date string that parses to an instant whose local
    year has four digits shows as "Mon D, YYYY"; a legal date-only string
    of a year from 1 on, on a host whose local time at that instant is
    UTC or ahead of it by less than a day, shows its own day; there
    "2024-03-05" shows as "Mar 5, 2024" and "2023-12-01" as
    "Dec 1, 2023". *)
Theorem date_shows_as_local_short_date
        (v : variant) (env : Environment) (props : ExpenseCardProps World)
        (w : World) :
  exists t tm text,
    ExpenseCard v env props w = Normal (t, w)
    /\ find_type "time" t = Some tm
    /\ children_of tm = [Text text]
    /\ (forall tv,
          parse env (date props) = Some tv ->
          1000 <= YearFromTime (LocalTime env tv) <= 9999 ->
          is_short_date text = true)
    /\ (forall y m d,
          date_only_fields (date props) = Some (y, m, d) ->
          1 <= y -> 1 <= m <= 12 -> 1 <= d <= DaysInMonth y (m - 1) ->
          0 <= LocalTZA env (MakeDay y (m - 1) d * msPerDay) < msPerDay ->
          text = month_short (m - 1) ++ " " ++ decimal d ++ ", " ++ decimal y)
    /\ (date props = "2024-03-05" ->
        0 <= LocalTZA env 1709596800000 < msPerDay ->
        text = "Mar 5, 2024")
    /\ (date props = "2023-12-01" ->
        0 <= LocalTZA env 1701388800000 < msPerDay ->
        text = "Dec 1, 2023").
Proof.
  assert (forall text,
             toLocaleDateString env (construct env (date props)) = Normal text ->
             (forall tv,
                 parse env (date props) = Some tv ->
                 1000 <= YearFromTime (LocalTime env tv) <= 9999 ->
                 is_short_date text = true)
             /\ (forall y m d,
                   date_only_fields (date props) = Some (y, m, d) ->
                   1 <= y -> 1 <= m <= 12 -> 1 <= d <= DaysInMonth y (m - 1) ->
                   0 <= LocalTZA env (MakeDay y (m - 1) d * msPerDay) < msPerDay ->
                   text = month_short (m - 1) ++ " " ++ decimal d ++ ", " ++ decimal y)
             /\ (date props = "2024-03-05" ->
                 0 <= LocalTZA env 1709596800000 < msPerDay ->
                 text = "Mar 5, 2024")
             /\ (date props = "2023-12-01" ->
                 0 <= LocalTZA env 1701388800000 < msPerDay ->
                 text = "Dec 1, 2023")) as Hdate.
  { intros text Htext.
    assert (forall y m d,
               date_only_fields (date props) = Some (y, m, d) ->
               1 <= y -> 1 <= m <= 12 -> 1 <= d <= DaysInMonth y (m - 1) ->
               0 <= LocalTZA env (MakeDay y (m - 1) d * msPerDay) < msPerDay ->
               text = month_short (m - 1) ++ " " ++ decimal d ++ ", " ++ decimal y)
      as Hown.
    { intros y m d Hf Hy Hm Hd Hz.
      pose proof (date_only_text env _ y m d Hf Hy Hm Hd Hz) as H.
      congruence. }
    split; [|split; [exact Hown|split]].
    - intros tv Hp Hy.
      destruct (toLocaleDateString_shape env _ tv Hp Hy) as (text' & H1 & H2).
      congruence.
    - intros Hs Hz. rewrite Hs in Hown.
      apply (Hown 2024 3 5); [reflexivity | lia | lia | vm_compute; intuition discriminate | exact Hz].
    - intros Hs Hz. rewrite Hs in Hown.
      apply (Hown 2023 12 1); [reflexivity | lia | lia | vm_compute; intuition discriminate | exact Hz]. }
  run_card v env props; specialize (Hdate _ Htext);
    destruct (onDelete props) as [cb|]; by_flags props;
    do 3 eexists; (split; [reflexivity|]); (split; [reflexivity|]);
    (split; [reflexivity|]); exact Hdate.
Qed.

(** C9 (amended). The two variants show the same category badge, date,
    description and amount, have the badge and the delete button under
    the same conditions, carry the same [dateTime] and [aria-label], and
    answer a click on the delete button alike; the delete button shows
    the multiplication sign in the CSS variant and the letter x in the
    Tailwind variant. *)
Theorem variants_agree_on_content
        (env : Environment) (props : ExpenseCardProps World) (w : World) :
  exists t1 t2,
    ExpenseCard css env props w = Normal (t1, w)
    /\ ExpenseCard tailwind env props w = Normal (t2, w)
    /\ (forall type,
          In type ["span"; "time"; "h3"; "p"] ->
          option_map children_of (find_type type t1)
          = option_map children_of (find_type type t2))
    /\ option_map (string_prop "dateTime") (find_type "time" t1)
       = option_map (string_prop "dateTime") (find_type "time" t2)
    /\ option_map (string_prop "aria-label") (find_type "button" t1)
       = option_map (string_prop "aria-label") (find_type "button" t2)
    /\ (find_type "span" t1 = None <-> find_type "span" t2 = None)
    /\ (find_type "button" t1 = None <-> find_type "button" t2 = None)
    /\ (forall b1,
          find_type "button" t1 = Some b1 ->
          children_of b1 = [Text times_sign])
    /\ (forall b2,
          find_type "button" t2 = Some b2 -> children_of b2 = [Text "x"])
    /\ forall (outer : list (Handler World)) (w' : World),
        click (has_type "button") t1 outer w'
        = click (has_type "button") t2 outer w'.
Proof.
  unfold ExpenseCard, Css.ExpenseCard, Tailwind.ExpenseCard, bind, ret, call.
  destruct (toLocaleDateString_returns env (date props)) as [text Htext].
  rewrite Htext. cbv beta iota zeta.
  destruct (onDelete props) as [cb|]; by_flags props;
    do 2 eexists; (split; [reflexivity|]); (split; [reflexivity|]);
    (split; [intros type Hin; cbn [In] in Hin;
             decompose [or] Hin; subst; try contradiction; reflexivity|]);
    repeat split; intros; try reflexivity; try assumption;
    try (cbn in *; congruence);
    match goal with
    | H : find_type "button" _ = Some ?b |- _ =>
        cbn in H; injection H as <-; reflexivity
    end.
Qed.

End Card.

(** ** The properties at sample inputs *)

Section Samples.

Import React Date Sample.

(** The sample amounts are binary64 values, and they are 7, 1234.5 and
    -5: the significand times the power of two is the number. *)
Lemma sample_doubles :
  forallb is_double [seven; d1234_5; zero; minus_5; d1_005; d0_29] = true
  /\ 7881299347898368 = 7 * 2 ^ 50
  /\ 2 * 5429388417957888 = 2469 * 2 ^ 42
  /\ 5629499534213120 = 5 * 2 ^ 50.
Proof. repeat split; vm_compute; reflexivity. Qed.

(** The formatter at amounts where the shortest decimal and the exact
    binary value round differently, or print different digits: 1.005,
    999999.995 and 2^70. *)
Lemma format_of_inexact_doubles :
  NumberFormat.format d1_005 = "$1.01"
  /\ NumberFormat.format d0_29 = "$0.29"
  /\ NumberFormat.format (S754_finite false 8589934549050327 (-33))
     = "$1,000,000.00"
  /\ NumberFormat.format (S754_finite true 4503599627370496 18)
     = "-$1,180,591,620,717,411,300,000.00".
Proof. repeat split; vm_compute; reflexivity. Qed.

(** C1 at the sample card: a click on the delete button hands the id 7 to
    the caller once, and an enclosing handler does not run. *)
Lemma delete_click_at_lunch :
  onDelete lunch = Some remember
  /\ exists t btn,
      ExpenseCard css utc lunch [] = Normal (t, [])
      /\ find_type "button" t = Some btn
      /\ string_prop "aria-label" btn = Some "Delete expense"
      /\ forall (outer : list (Handler (list number))) (w' : list number),
          click (has_type "button") t outer w' =
          Some {| stopped := true;
                  world := remember (id lunch) w';
                  journal := [PropagationStopped; CallbackInvoked (id lunch)] |}.
Proof.
  split; [reflexivity|].
  apply (delete_click_stops_then_deletes css utc lunch [] remember).
  reflexivity.
Defined.

(** C2, as first stated, fails west of UTC and for a year of two digits:
    five hours west of UTC "2024-03-05" shows as "Mar 4, 2024", and on UTC
    "0099-01-01" shows as "Jan 1, 99". *)
Lemma date_only_string_west_of_utc :
  (exists t tm,
      ExpenseCard css utc_minus_5 lunch [] = Normal (t, [])
      /\ find_type "time" t = Some tm
      /\ children_of tm = [Text "Mar 4, 2024"])
  /\ (exists t tm,
        ExpenseCard css utc (expense d1234_5 "0099-01-01" None None None) []
        = Normal (t, [])
        /\ find_type "time" t = Some tm
        /\ children_of tm = [Text "Jan 1, 99"]
        /\ is_short_date "Jan 1, 99" = false).
Proof.
  split; do 2 eexists; repeat split; vm_compute; reflexivity.
Qed.

(** C2 (amended) at the sample card on UTC. *)
Lemma date_at_lunch_on_utc :
  exists t tm,
    ExpenseCard css utc lunch [] = Normal (t, [])
    /\ find_type "time" t = Some tm
    /\ children_of tm = [Text "Mar 5, 2024"]
    /\ is_short_date "Mar 5, 2024" = true.
Proof.
  destruct (date_shows_as_local_short_date css utc lunch [])
    as (t & tm & text & Hrun & Htm & Htext & Hshape & _ & H2024 & _).
  assert (text = "Mar 5, 2024") as Heq.
  { apply H2024; [reflexivity | split; [apply Z.le_refl | reflexivity]]. }
  exists t, tm. split; [exact Hrun|]. split; [exact Htm|]. split.
  - rewrite <- Heq. exact Htext.
  - rewrite <- Heq. apply (Hshape 1709596800000); [reflexivity|].
    split; discriminate.
Defined.

(** C3, as first stated, fails for the amounts that are not finite: NaN
    shows as "$NaN" and Infinity as "$" followed by the infinity sign,
    neither with digits. *)
Lemma non_finite_amount_shows_without_digits :
  (exists t p,
      ExpenseCard css utc (expense S754_nan "2024-03-05" None None None) []
      = Normal (t, [])
      /\ find_type "p" t = Some p
      /\ children_of p = [Text "$NaN"]
      /\ NumberFormat.is_usd "$NaN" = false)
  /\ (exists t p,
        ExpenseCard css utc
          (expense (S754_infinity false) "2024-03-05" None None None) []
        = Normal (t, [])
        /\ find_type "p" t = Some p
        /\ children_of p = [Text ("$" ++ infinity_sign)]
        /\ NumberFormat.is_usd ("$" ++ infinity_sign) = false).
Proof.
  split; do 2 eexists; repeat split; vm_compute; reflexivity.
Qed.

(** C3 (amended) at the sample card, and at the amount 1.005, whose
    double is a little below 1.005 and which shows as "$1.01". *)
Lemma amount_at_lunch :
  is_finite (amount lunch) = true
  /\ (exists t p,
        ExpenseCard css utc lunch [] = Normal (t, [])
        /\ find_type "p" t = Some p
        /\ children_of p = [Text "$1,234.50"]
        /\ NumberFormat.is_usd "$1,234.50" = true)
  /\ NumberFormat.rounds_to 4526117625507348 (-52)
       (NumberFormat.decimal_value 1005 3) = true
  /\ exists t p,
      ExpenseCard css utc (expense d1_005 "2024-03-05" None None None) []
      = Normal (t, [])
      /\ find_type "p" t = Some p
      /\ children_of p = [Text "$1.01"].
Proof.
  split; [reflexivity|]. split; [|split; [vm_compute; reflexivity|]].
  - destruct (finite_amount_shows_as_usd css utc lunch [] eq_refl)
      as (t & p & text & Hrun & Hp & Htext & Husd & H1234 & _).
    assert (text = "$1,234.50") as Heq by (apply H1234; reflexivity).
    exists t, p. rewrite <- Heq. auto.
  - destruct (finite_amount_shows_as_usd css utc
                (expense d1_005 "2024-03-05" None None None) [] eq_refl)
      as (t & p & text & Hrun & Hp & Htext & _ & _ & _ & _ & Hdec & _).
    assert (text = "$1.01") as Heq.
    { rewrite (Hdec false 4526117625507348%positive (-52) 1005 3);
        [vm_compute; reflexivity | reflexivity | lia | lia
        | reflexivity | vm_compute; reflexivity]. }
    exists t, p. rewrite <- Heq. auto.
Defined.

(** C5 at the sample card with and without [showCategory]. *)
Lemma badge_at_lunch :
  (exists t,
      ExpenseCard css utc
        (expense d1234_5 "2024-03-05" None None (Some false)) []
      = Normal (t, [])
      /\ find_type "span" t = None)
  /\ (exists t badge,
        ExpenseCard css utc lunch [] = Normal (t, [])
        /\ find_type "span" t = Some badge
        /\ children_of badge = [Text "Food"]).
Proof.
  split.
  - destruct (category_badge_follows_showCategory css utc
                (expense d1234_5 "2024-03-05" None None (Some false)) [])
      as (t & Hrun & Hoff & _).
    exists t. split; [exact Hrun | apply Hoff; reflexivity].
  - destruct (category_badge_follows_showCategory css utc lunch [])
      as (t & Hrun & _ & Hon).
    destruct Hon as (badge & Hfind & Htext); [discriminate|].
    exists t, badge. auto.
Defined.

(** C6 at the sample card, highlighted. *)
Lemma highlighted_at_lunch :
  exists t1 t2,
    ExpenseCard css utc
      (expense d1234_5 "2024-03-05" None (Some true) None) []
    = Normal (t1, [])
    /\ ExpenseCard tailwind utc
         (expense d1234_5 "2024-03-05" None (Some true) None) []
       = Normal (t2, [])
    /\ has_class "expense-card--highlighted" t1 = true
    /\ has_class "border-orange-500" t2 = true
    /\ has_class "bg-orange-50" t2 = true.
Proof.
  destruct (highlighted_selects_root_classes utc
              (expense d1234_5 "2024-03-05" None (Some true) None) [])
    as (t1 & t2 & H1 & H2 & Hcss & _ & Ho & Hb & _).
  exists t1, t2. repeat split; try assumption.
  - apply Hcss; reflexivity.
  - apply Ho; reflexivity.
  - apply Hb; reflexivity.
Defined.

(** C7 at a string that is no date. *)
Lemma invalid_date_at_lunch :
  parse utc (date (expense d1234_5 "yesterday" None None None)) = None
  /\ exists t tm,
      ExpenseCard css utc (expense d1234_5 "yesterday" None None None) []
      = Normal (t, [])
      /\ find_type "time" t = Some tm
      /\ children_of tm = [Text "Invalid Date"]
      /\ string_prop "dateTime" tm = Some "yesterday".
Proof.
  split; [reflexivity|].
  apply (unparseable_date_shows_Invalid_Date css utc
           (expense d1234_5 "yesterday" None None None) []).
  reflexivity.
Defined.

(** C9, as first stated, fails: with the styling erased the two trees of
    the sample card still differ, and so does the text of the delete
    button. *)
Lemma variants_differ_beyond_styling :
  exists t1 t2,
    ExpenseCard css utc lunch [] = Normal (t1, [])
    /\ ExpenseCard tailwind utc lunch [] = Normal (t2, [])
    /\ unstyled t1 <> unstyled t2
    /\ option_map textContent (find_type "button" t1) = Some times_sign
    /\ option_map textContent (find_type "button" t2) = Some "x"
    /\ times_sign <> "x".
Proof.
  do 2 eexists. split; [vm_compute; reflexivity|].
  split; [vm_compute; reflexivity|].
  repeat split; try (vm_compute; reflexivity); vm_compute; discriminate.
Qed.

(** C9 (amended) at the sample card. *)
Lemma variants_agree_at_lunch :
  exists t1 t2,
    ExpenseCard css utc lunch [] = Normal (t1, [])
    /\ ExpenseCard tailwind utc lunch [] = Normal (t2, [])
    /\ option_map children_of (find_type "p" t1)
       = option_map children_of (find_type "p" t2)
    /\ click (has_type "button") t1 [] [] = click (has_type "button") t2 [] [].
Proof.
  destruct (variants_agree_on_content utc lunch [])
    as (t1 & t2 & H1 & H2 & Htext & _ & _ & _ & _ & _ & _ & Hclick).
  exists t1, t2. repeat split; try assumption.
  - apply Htext. cbn. auto.
  - apply Hclick.
Defined.

End Samples.

(* ================================================================== *)
(** * Further properties of the component *)
(* ================================================================== *)

Section Further.

Import React Date.

Context {World : Type}.

Ltac render_card v env props :=
  destruct v;
  unfold ExpenseCard, Css.ExpenseCard, Tailwind.ExpenseCard, bind, ret, call;
  let text := fresh "text" in
  let Htext := fresh "Htext" in
  destruct (toLocaleDateString_returns env (date props)) as [text Htext];
  rewrite Htext; cbv beta iota zeta.

(** Deciding, one element type after the other, whether the click was
    aimed at it. *)
Ltac by_target ty :=
  cbn [bubble_path has_type];
  repeat match goal with
         | |- context [String.eqb ?s ty] =>
             destruct (String.eqb s ty); cbn [bubble_path has_type]
         end.

(** X1. A click on an element of the card other than the delete button
    stops nothing and deletes nothing: the handlers of the enclosing
    elements run as if the card had no handler at all. Without [onDelete]
    this holds for every element of the card. *)
Theorem click_outside_delete_button_only_bubbles
        (v : variant) (env : Environment) (props : ExpenseCardProps World)
        (w : World) (ty : string) :
  ty <> "button" \/ onDelete props = None ->
  exists t,
    ExpenseCard v env props w = Normal (t, w)
    /\ forall (outer : list (Handler World)) (w' : World),
        click (has_type ty) t outer w' = None
        \/ click (has_type ty) t outer w' =
           Some (dispatch outer
                   {| stopped := false; world := w'; journal := [] |}).
Proof.
  intros Hty.
  render_card v env props;
    (destruct (onDelete props) as [cb|];
     [ assert (String.eqb "button" ty = false) as Hb
         by (destruct Hty as [Hty|Hty];
             [apply String.eqb_neq; congruence | discriminate Hty])
     | ]);
    destruct (default true (showCategory props));
    eexists; (split; [reflexivity|]); intros outer w'; unfold click;
    cbn [bubble_path has_type]; rewrite ?Hb;
    by_target ty; cbn; auto.
Qed.


(** X2. [highlighted] is presentation only: two renders that differ in
    nothing but [highlighted] give, with the styling erased, the same
    tree, the click handler included. *)
Theorem highlighted_changes_styling_only
        (v : variant) (env : Environment) (w : World)
        (i a : number) (d dt : string) (c : ExpenseCategory)
        (od : option (number -> World -> World))
        (sc h1 h2 : option bool) :
  exists t1 t2,
    ExpenseCard v env
      {| id := i; description := d; amount := a; category := c; date := dt;
         onDelete := od; highlighted := h1; showCategory := sc |} w
    = Normal (t1, w)
    /\ ExpenseCard v env
         {| id := i; description := d; amount := a; category := c; date := dt;
            onDelete := od; highlighted := h2; showCategory := sc |} w
       = Normal (t2, w)
    /\ unstyled t1 = unstyled t2.
Proof.
  destruct v;
    unfold ExpenseCard, Css.ExpenseCard, Tailwind.ExpenseCard, bind, ret, call;
    cbn [id description amount category date onDelete highlighted showCategory];
    destruct (toLocaleDateString_returns env dt) as [text Htext];
    rewrite Htext; cbv beta iota zeta;
    do 2 eexists; (split; [reflexivity|]); (split; [reflexivity|]);
    destruct od, (default true sc); reflexivity.
Qed.

(** X6. The [id] reaches the output through the delete handler only: two
    renders that differ in nothing but [id] give the same tree once the
    handlers are taken away (the same elements, attributes and texts),
    and without [onDelete] they give the same tree. *)
Theorem id_reaches_the_handler_only
        (v : variant) (env : Environment) (w : World)
        (i1 i2 a : number) (d dt : string) (c : ExpenseCategory)
        (od : option (number -> World -> World))
        (sc h : option bool) :
  exists t1 t2,
    ExpenseCard v env
      {| id := i1; description := d; amount := a; category := c; date := dt;
         onDelete := od; highlighted := h; showCategory := sc |} w
    = Normal (t1, w)
    /\ ExpenseCard v env
         {| id := i2; description := d; amount := a; category := c; date := dt;
            onDelete := od; highlighted := h; showCategory := sc |} w
       = Normal (t2, w)
    /\ without_handlers t1 = without_handlers t2
    /\ textContent t1 = textContent t2
    /\ (od = None -> t1 = t2).
Proof.
  destruct v;
    unfold ExpenseCard, Css.ExpenseCard, Tailwind.ExpenseCard, bind, ret, call;
    cbn [id description amount category date onDelete highlighted showCategory];
    destruct (toLocaleDateString_returns env dt) as [text Htext];
    rewrite Htext; cbv beta iota zeta;
    do 2 eexists; (split; [reflexivity|]); (split; [reflexivity|]);
    destruct od, (default true sc);
    (split; [reflexivity|]); (split; [reflexivity|]);
    intros H; try discriminate H; reflexivity.
Qed.

(** X4. Nothing keeps a second click from deleting again: [n] clicks on
    the delete button of one rendered card call [onDelete] [n] times, each
    time with the [id] of the props, and no enclosing handler runs. *)
Theorem n_clicks_delete_n_times
        (v : variant) (env : Environment) (props : ExpenseCardProps World)
        (w : World) (cb : number -> World -> World) :
  onDelete props = Some cb ->
  exists t,
    ExpenseCard v env props w = Normal (t, w)
    /\ forall (n : nat) (outer : list (Handler World)) (w0 : World),
        click_times n (has_type "button") t outer w0
        = Some (Nat.iter n (cb (id props)) w0).
Proof.
  intros Hcb.
  render_card v env props; rewrite Hcb;
    destruct (default true (showCategory props));
    eexists; (split; [reflexivity|]);
    (induction n as [|n IH]; intros outer w0;
     [reflexivity | cbn [click_times]; rewrite IH; reflexivity]).
Qed.

Lemma Day_shift_west (d off : Z) :
  - msPerDay <= off < 0 -> Day (d * msPerDay + off) = d - 1.
Proof.
  intros H. unfold Day, msPerDay in *. Z.div_mod_to_equations. lia.
Qed.

(** X3. West of UTC a date-only string shows the day before: when the
    local time at midnight UTC of the day the string spells is behind UTC
    (by a day at most), the card shows the date of the preceding day,
    across the ends of months and years as well. *)
Theorem date_only_string_shows_day_before_west_of_utc
        (v : variant) (env : Environment) (props : ExpenseCardProps World)
        (w : World) (y m d y' m' d' : Z) :
  date_only_fields (date props) = Some (y, m, d) ->
  1 <= m <= 12 -> 1 <= d <= DaysInMonth y (m - 1) ->
  1 <= y' -> 1 <= m' <= 12 -> 1 <= d' <= DaysInMonth y' (m' - 1) ->
  MakeDay y' (m' - 1) d' = MakeDay y (m - 1) d - 1 ->
  - msPerDay <= LocalTZA env (MakeDay y (m - 1) d * msPerDay) < 0 ->
  exists t tm,
    ExpenseCard v env props w = Normal (t, w)
    /\ find_type "time" t = Some tm
    /\ children_of tm =
       [Text (month_short (m' - 1) ++ " " ++ decimal d' ++ ", " ++ decimal y')].
Proof.
  intros Hf Hm Hd Hy' Hm' Hd' Hprev Hwest.
  assert (toLocaleDateString env (construct env (date props))
          = Normal (month_short (m' - 1) ++ " " ++ decimal d' ++ ", "
                    ++ decimal y')) as Htext.
  { rewrite (toLocaleDateString_valid env _ _
               (parse_date_only env _ y m d Hf Hm Hd)).
    assert (Day (LocalTime env (MakeDay y (m - 1) d * msPerDay))
            = MakeDay y' (m' - 1) d') as HD
        by (unfold LocalTime; rewrite Hprev; now apply Day_shift_west).
    destruct (civil_of_MakeDay y' (m' - 1) d' _ ltac:(lia) Hd' HD)
      as (-> & -> & ->).
    unfold year_of_era.
    now replace (1 <=? y') with true by (symmetry; apply Z.leb_le; lia). }
  destruct v;
    unfold ExpenseCard, Css.ExpenseCard, Tailwind.ExpenseCard, bind, ret, call;
    rewrite Htext; cbv beta iota zeta;
    destruct (onDelete props), (default true (showCategory props));
    do 2 eexists; repeat split; reflexivity.
Qed.

(** X7. The base classes stay on the root in both states: highlighting
    adds to them and takes nothing away but the blue border.  In the
    Tailwind variant a highlighted root so carries [bg-white] and
    [bg-orange-50] together. *)
Theorem base_classes_stay_when_highlighted
        (env : Environment) (props : ExpenseCardProps World) (w : World) :
  exists t1 t2,
    ExpenseCard css env props w = Normal (t1, w)
    /\ ExpenseCard tailwind env props w = Normal (t2, w)
    /\ has_class "expense-card" t1 = true
    /\ (forall c,
          In c ["relative"; "bg-white"; "rounded-lg"; "p-4"; "mb-3";
                "shadow-md"; "transition-all"; "duration-200"; "border";
                "hover:shadow-lg"] ->
          has_class c t2 = true)
    /\ (has_class "border-blue-500" t2 = true
        <-> highlighted props <> Some true).
Proof.
  unfold ExpenseCard, Css.ExpenseCard, Tailwind.ExpenseCard, bind, ret, call.
  destruct (toLocaleDateString_returns env (date props)) as [text Htext].
  rewrite Htext. cbv beta iota zeta.
  destruct (highlighted props) as [[|]|]; cbn [default];
    do 2 eexists; (split; [reflexivity|]); (split; [reflexivity|]);
    unfold has_class; rewrite !classList_className;
    rewrite ?css_classes_plain, ?css_classes_highlighted,
      ?tailwind_classes_plain, ?tailwind_classes_highlighted;
    (split; [reflexivity|]);
    (split;
     [ intros c Hin; cbn [In] in Hin;
       decompose [or] Hin; subst; try contradiction; reflexivity
     | split; intros H; try reflexivity; try congruence;
       vm_compute in H; discriminate H ]).
Qed.

End Further.

(** ** The further properties at sample inputs *)

Section FurtherSamples.

Import React Date Sample.

(** X1 at the sample card: a click on the description, below an element
    that has a click handler of its own. *)
Lemma click_on_description_at_lunch :
  ("h3" <> "button" \/ onDelete lunch = None)
  /\ exists t,
      ExpenseCard css utc lunch [] = Normal (t, [])
      /\ (click (has_type "h3") t [invoke remember zero] [] = None
          \/ click (has_type "h3") t [invoke remember zero] []
             = Some (dispatch [invoke remember zero]
                       {| stopped := false; world := []; journal := [] |})).
Proof.
  assert ("h3" <> "button" \/ onDelete lunch = None) as Hty
      by (left; discriminate).
  split; [exact Hty|].
  destruct (click_outside_delete_button_only_bubbles css utc lunch [] "h3" Hty)
    as (t & Hrun & Hclick).
  exists t. split; [exact Hrun | exact (Hclick [invoke remember zero] [])].
Defined.

(** X3 at the first of March of a leap year, five hours west of UTC. *)
Lemma first_of_march_west_of_utc :
  date_only_fields "2024-03-01" = Some (2024, 3, 1)
  /\ MakeDay 2024 1 29 = MakeDay 2024 2 1 - 1
  /\ exists t tm,
      ExpenseCard css utc_minus_5
        (expense d1234_5 "2024-03-01" None None None) []
      = Normal (t, [])
      /\ find_type "time" t = Some tm
      /\ children_of tm = [Text "Feb 29, 2024"].
Proof.
  split; [reflexivity|]. split; [reflexivity|].
  apply (date_only_string_shows_day_before_west_of_utc css utc_minus_5
           (expense d1234_5 "2024-03-01" None None None) []
           2024 3 1 2024 2 29);
    try reflexivity; try lia; vm_compute; intuition discriminate.
Defined.

(** X4 at the sample card: three clicks hand the id 7 over three times. *)
Lemma three_clicks_at_lunch :
  onDelete lunch = Some remember
  /\ exists t,
      ExpenseCard css utc lunch [] = Normal (t, [])
      /\ click_times 3 (has_type "button") t [] [] = Some [seven; seven; seven].
Proof.
  split; [reflexivity|].
  destruct (n_clicks_delete_n_times css utc lunch [] remember eq_refl)
    as (t & Hrun & Hn).
  exists t. split; [exact Hrun | exact (Hn 3%nat [] [])].
Defined.

End FurtherSamples.
